(** * The OpenAI conversation agent: one turn of [OpenAIAgent.async_process]

    A shallow embedding of the conversation engine of the integration
    (file [__init__.py]): the per-session message history, the construction
    of the prompt, the parsing of the model's reply and the decision to
    dispatch a command, together with the properties of one turn.

    Conventions of the embedding.
    - A Python [str] is a Rocq [string] holding its UTF-8 encoding.  Every
      character the program or the JSON grammar inspects is ASCII, and an
      ASCII byte never occurs inside the encoding of another character, so
      [str.replace] and the JSON scanner act on the bytes as they act on the
      code points.
    - A Python [dict] with string keys is an association list in insertion
      order with unique keys ([dict_set], [dict_del], [dict_get]).
    - The agent's [self.history] is a [gmap] from session ids to message
      lists.
    - An exception is a value of [exn]; code that may raise returns an
      [outcome]. *)

From Stdlib Require Import ZArith NArith Ascii String List Lia DecimalString.
From stdpp Require Import base option list strings gmap.

Set Warnings "-register-all".

(** ** Python exceptions *)

(** The exception objects that occur in a turn.  [JSONDecodeError] carries
    the attributes [msg], [doc], [pos], [lineno], [colno] that the json
    module computes when it builds the exception. *)
Inductive exn : Type :=
| TemplateError (msg : string)
| OpenAIError (msg : string)
| JSONDecodeError (msg doc : string) (pos lineno colno : nat)
| KeyError (key : string)
| TypeError (msg : string)
| RecursionError (msg : string)
| OtherError (cls msg : string).

Inductive outcome (A : Type) : Type :=
| Return (a : A)
| Raise (e : exn).
Arguments Return {A} a.
Arguments Raise {A} e.

(** ** Python strings *)

Module PyStr.

Definition dquote : ascii := ascii_of_nat 34.
Definition backslash : ascii := ascii_of_nat 92.
Definition newline : ascii := ascii_of_nat 10.

(** [quoted s] is [s] with every apostrophe turned into a double quote:
    it lets JSON texts be written as readable literals. *)
Fixpoint quoted (s : string) : string :=
  match s with
  | EmptyString => EmptyString
  | String c r => String (if Ascii.eqb c "'" then dquote else c) (quoted r)
  end.

Fixpoint startswith (p s : string) : bool :=
  match p, s with
  | EmptyString, _ => true
  | String a p', String b s' => Ascii.eqb a b && startswith p' s'
  | String _ _, EmptyString => false
  end.

(** [s.replace(old, new)] for a non-empty [old]: the occurrences of
    [old] are found from left to right and do not overlap.  [skip]
    counts the characters of an occurrence still to be dropped. *)
Fixpoint replace_from (skip : nat) (old new s : string) : string :=
  match s with
  | EmptyString => EmptyString
  | String c r =>
      match skip with
      | S k => replace_from k old new r
      | O =>
          if startswith old s
          then new +:+ replace_from (String.length old - 1) old new r
          else String c (replace_from 0 old new r)
      end
  end.

Definition replace (old new s : string) : string := replace_from 0 old new s.

(** [sub in s] *)
Fixpoint contains (sub s : string) : bool :=
  startswith sub s ||
  match s with
  | EmptyString => false
  | String _ r => contains sub r
  end.

Fixpoint take (n : nat) (s : string) : string :=
  match n, s with
  | S k, String c r => String c (take k r)
  | _, _ => EmptyString
  end.

(** The number of code points of a UTF-8 encoded text: the bytes that are
    not continuation bytes ([10xxxxxx]). *)
Definition is_continuation (c : ascii) : bool :=
  let n := nat_of_ascii c in (128 <=? n) && (n <? 192).

Fixpoint char_count (s : string) : nat :=
  match s with
  | EmptyString => 0
  | String c r => (if is_continuation c then 0 else 1) + char_count r
  end.

Fixpoint count_newlines (s : string) : nat :=
  match s with
  | EmptyString => 0
  | String c r => (if Ascii.eqb c newline then 1 else 0) + count_newlines r
  end.

(** The code points after the last newline of [s] (all of them when [s]
    has no newline). *)
Fixpoint chars_after_last_newline (s : string) : nat :=
  match s with
  | EmptyString => 0
  | String c r =>
      if Ascii.eqb c newline then chars_after_last_newline r
      else if 0 <? count_newlines r then chars_after_last_newline r
      else (if is_continuation c then 0 else 1) + chars_after_last_newline r
  end.

(** [str(n)] for a natural number. *)
Definition of_nat (n : nat) : string := NilEmpty.string_of_uint (Nat.to_uint n).

(** [repr(s)] of a string without quotes, backslashes or unprintable
    characters, as are the keys this program looks up. *)
Definition repr_plain (s : string) : string := "'" +:+ s +:+ "'".

End PyStr.

(** ** JSON values and the decoder [json.loads]

    The decoder follows the json module of the interpreter the integration
    runs on (its scanner for values, objects, arrays, strings in strict
    mode and numbers), with the messages and positions of its errors. *)

Module Json.
Import PyStr.

(** The Python values [json.loads] builds.  A float is kept as the text
    it was read from; a [dict] keeps its keys in insertion order. *)
Inductive json : Type :=
| JNull
| JBool (b : bool)
| JInt (z : Z)
| JFloat (lexeme : string)
| JString (s : string)
| JArray (items : list json)
| JObject (members : list (string * json)).

Definition pydict : Type := list (string * json).

(** [d[key]] as an option, [key in d] *)
Fixpoint dict_get (key : string) (d : pydict) : option json :=
  match d with
  | [] => None
  | (k, v) :: d' => if String.eqb k key then Some v else dict_get key d'
  end.

Definition dict_mem (key : string) (d : pydict) : bool :=
  match dict_get key d with Some _ => true | None => false end.

(** [d[key] = v]: a key already present keeps its place. *)
Fixpoint dict_set (key : string) (v : json) (d : pydict) : pydict :=
  match d with
  | [] => [(key, v)]
  | (k, w) :: d' =>
      if String.eqb k key then (k, v) :: d' else (k, w) :: dict_set key v d'
  end.

(** [del d[key]] for a key that is present. *)
Fixpoint dict_del (key : string) (d : pydict) : pydict :=
  match d with
  | [] => []
  | (k, w) :: d' =>
      if String.eqb k key then d' else (k, w) :: dict_del key d'
  end.

(** *** Lexical helpers *)

Definition is_whitespace (c : ascii) : bool :=
  Ascii.eqb c " " || Ascii.eqb c (ascii_of_nat 9)
  || Ascii.eqb c (ascii_of_nat 10) || Ascii.eqb c (ascii_of_nat 13).

Fixpoint skip_ws (s : string) : string :=
  match s with
  | String c r => if is_whitespace c then skip_ws r else s
  | EmptyString => s
  end.

Definition is_digit (c : ascii) : bool :=
  let n := nat_of_ascii c in (48 <=? n) && (n <=? 57).

Definition digit_val (c : ascii) : Z := Z.of_nat (nat_of_ascii c) - 48.

Definition hex_val (c : ascii) : option N :=
  let n := N_of_ascii c in
  if ((48 <=? n) && (n <=? 57))%N then Some (n - 48)%N
  else if ((97 <=? n) && (n <=? 102))%N then Some (n - 87)%N
  else if ((65 <=? n) && (n <=? 70))%N then Some (n - 55)%N
  else None.

Definition hex4 (a b c d : ascii) : option N :=
  match hex_val a, hex_val b, hex_val c, hex_val d with
  | Some x, Some y, Some z, Some w =>
      Some (N.lor (N.shiftl (N.lor (N.shiftl (N.lor (N.shiftl x 4) y) 4) z) 4) w)
  | _, _, _, _ => None
  end.

Definition is_high_surrogate (u : N) : bool := ((55296 <=? u) && (u <=? 56319))%N.
Definition is_low_surrogate (u : N) : bool := ((56320 <=? u) && (u <=? 57343))%N.
Definition join_surrogates (hi lo : N) : N :=
  (65536 + N.lor (N.shiftl (hi - 55296) 10) (lo - 56320))%N.

Definition byte (n : N) : ascii := ascii_of_N n.

(** The UTF-8 encoding of [chr(u)]; a lone surrogate gets the three-byte
    form, so that distinct Python strings stay distinct. *)
Definition utf8 (u : N) : string :=
  if (u <? 128)%N then String (byte u) EmptyString
  else if (u <? 2048)%N then
    String (byte (192 + N.shiftr u 6))
      (String (byte (128 + N.land u 63)) EmptyString)
  else if (u <? 65536)%N then
    String (byte (224 + N.shiftr u 12))
      (String (byte (128 + N.land (N.shiftr u 6) 63))
         (String (byte (128 + N.land u 63)) EmptyString))
  else
    String (byte (240 + N.shiftr u 18))
      (String (byte (128 + N.land (N.shiftr u 12) 63))
         (String (byte (128 + N.land (N.shiftr u 6) 63))
            (String (byte (128 + N.land u 63)) EmptyString))).

(** The one-character escapes of a JSON string. *)
Definition unescape (c : ascii) : option ascii :=
  if Ascii.eqb c dquote then Some dquote
  else if Ascii.eqb c backslash then Some backslash
  else if Ascii.eqb c "/" then Some "/"%char
  else if Ascii.eqb c "b" then Some (ascii_of_nat 8)
  else if Ascii.eqb c "f" then Some (ascii_of_nat 12)
  else if Ascii.eqb c "n" then Some (ascii_of_nat 10)
  else if Ascii.eqb c "r" then Some (ascii_of_nat 13)
  else if Ascii.eqb c "t" then Some (ascii_of_nat 9)
  else None.

(** *** The scanner

    The scanner works on the text that remains to be read.  A position
    in the document is kept as the length of the text remaining at that
    position; [json_loads] turns it into an index. *)
Inductive scan_error : Type :=
| StopIteration (remaining : nat)
| DecodeError (msg : string) (remaining : nat)
| DepthExceeded.

Inductive scanned (A : Type) : Type :=
| Ok (a : A) (rest : string)
| Err (e : scan_error).
Arguments Ok {A} a rest.
Arguments Err {A} e.

Definition prepend (p : string) (r : scanned string) : scanned string :=
  match r with
  | Ok s rest => Ok (p +:+ s) rest
  | Err e => Err e
  end.

(** [scanstring]: [s] is the text after the opening quote, [begin] the
    position of that quote.  Strict mode: a control character ends the
    scan with an error. *)
Fixpoint scanstring (begin : nat) (s : string) : scanned string :=
  match s with
  | EmptyString => Err (DecodeError "Unterminated string starting at" begin)
  | String c r =>
      if Ascii.eqb c dquote then Ok EmptyString r
      else if Ascii.eqb c backslash then
        match r with
        | EmptyString => Err (DecodeError "Unterminated string starting at" begin)
        | String e r1 =>
            if Ascii.eqb e "u" then
              match r1 with
              | String h1 (String h2 (String h3 (String h4 r5))) =>
                  match r5 with
                  | EmptyString =>
                      Err (DecodeError "Invalid \uXXXX escape" (String.length r))
                  | String _ _ =>
                      match hex4 h1 h2 h3 h4 with
                      | None => Err (DecodeError "Invalid \uXXXX escape" (String.length r))
                      | Some u =>
                          match r5 with
                          | String b (String v (String g1 (String g2 (String g3
                              (String g4 r12))))) =>
                              if is_high_surrogate u && Ascii.eqb b backslash
                                 && Ascii.eqb v "u"
                                 && negb (String.length r12 =? 0)
                              then
                                match hex4 g1 g2 g3 g4 with
                                | None =>
                                    Err (DecodeError "Invalid \uXXXX escape"
                                           (S (String.length r12) + 4))
                                | Some u2 =>
                                    if is_low_surrogate u2
                                    then prepend (utf8 (join_surrogates u u2))
                                           (scanstring begin r12)
                                    else prepend (utf8 u) (scanstring begin r5)
                                end
                              else prepend (utf8 u) (scanstring begin r5)
                          | _ => prepend (utf8 u) (scanstring begin r5)
                          end
                      end
                  end
              | _ => Err (DecodeError "Invalid \uXXXX escape" (String.length r))
              end
            else
              match unescape e with
              | Some ch => prepend (String ch EmptyString) (scanstring begin r1)
              | None => Err (DecodeError "Invalid \escape" (String.length s))
              end
        end
      else if nat_of_ascii c <=? 31 then
        Err (DecodeError "Invalid control character at" (String.length s))
      else prepend (String c EmptyString) (scanstring begin r)
  end.

(** *** Numbers

    An optional minus sign, then an integer part (a single 0, or a
    non-zero digit and the digits that follow), then an optional fraction (a
    dot and at least one digit), then an optional exponent (e or E, an
    optional sign, at least one digit).  The number is an [int] when it has
    neither fraction nor exponent. *)
Fixpoint span_digits (s : string) : string * string :=
  match s with
  | String c r =>
      if is_digit c
      then let '(d, rest) := span_digits r in (String c d, rest)
      else (EmptyString, s)
  | EmptyString => (EmptyString, s)
  end.

Fixpoint digits_val (acc : Z) (s : string) : Z :=
  match s with
  | EmptyString => acc
  | String c r => digits_val (10 * acc + digit_val c) r
  end.

Definition int_part (s : string) : option (string * string) :=
  match s with
  | String c r =>
      if Ascii.eqb c "0" then Some (String c EmptyString, r)
      else if is_digit c
           then let '(d, rest) := span_digits r in Some (String c d, rest)
           else None
  | EmptyString => None
  end.

Definition frac_part (s : string) : string * string :=
  match s with
  | String c (String d _ as r) =>
      if Ascii.eqb c "." && is_digit d
      then let '(ds, rest) := span_digits r in (String c ds, rest)
      else (EmptyString, s)
  | _ => (EmptyString, s)
  end.

Definition exp_part (s : string) : string * string :=
  match s with
  | String e r =>
      if Ascii.eqb e "e" || Ascii.eqb e "E" then
        let '(sg, r') :=
          match r with
          | String x y =>
              if Ascii.eqb x "-" || Ascii.eqb x "+"
              then (String x EmptyString, y) else (EmptyString, r)
          | EmptyString => (EmptyString, r)
          end in
        let '(ds, rest) := span_digits r' in
        match ds with
        | EmptyString => (EmptyString, s)
        | String _ _ => (String e (sg +:+ ds), rest)
        end
      else (EmptyString, s)
  | EmptyString => (EmptyString, s)
  end.

Definition match_number (s : string) : option (json * string) :=
  let '(neg, s1) :=
    match s with
    | String c r => if Ascii.eqb c "-" then (true, r) else (false, s)
    | EmptyString => (false, s)
    end in
  match int_part s1 with
  | None => None
  | Some (ip, s2) =>
      let '(fp, s3) := frac_part s2 in
      let '(ep, s4) := exp_part s3 in
      match fp, ep with
      | EmptyString, EmptyString =>
          Some (JInt (if neg then - digits_val 0 ip else digits_val 0 ip)%Z, s4)
      | _, _ =>
          Some (JFloat ((if neg then "-" else EmptyString) +:+ ip +:+ fp +:+ ep), s4)
      end
  end.

(** The named constants: [s] starts with [lit] and the scan goes on after it. *)
Fixpoint strip_prefix (lit s : string) : option string :=
  match lit, s with
  | EmptyString, _ => Some s
  | String a lit', String b s' => if Ascii.eqb a b then strip_prefix lit' s' else None
  | String _ _, EmptyString => None
  end.

Definition scan_constant (s : string) : option (json * string) :=
  match strip_prefix "null" s with
  | Some r => Some (JNull, r)
  | None =>
  match strip_prefix "true" s with
  | Some r => Some (JBool true, r)
  | None =>
  match strip_prefix "false" s with
  | Some r => Some (JBool false, r)
  | None =>
  match strip_prefix "NaN" s with
  | Some r => Some (JFloat "NaN", r)
  | None =>
  match strip_prefix "Infinity" s with
  | Some r => Some (JFloat "Infinity", r)
  | None =>
  match strip_prefix "-Infinity" s with
  | Some r => Some (JFloat "-Infinity", r)
  | None => None
  end end end end end end.

(** *** Values, objects and arrays

    [scan_once s] reads one value at the start of [s]; [parse_members]
    and [parse_elements] are the loops of an object and of an array, entered
    at the start of a key and of an element.  [depth] bounds the calls
    still allowed: a value and the loop it opens take one each. *)
Fixpoint scan_once (depth : nat) (s : string) : scanned json :=
  match depth with
  | O => Err DepthExceeded
  | S depth' =>
      match s with
      | EmptyString => Err (StopIteration 0)
      | String c r =>
          if Ascii.eqb c dquote then
            match scanstring (String.length s) r with
            | Ok str rest => Ok (JString str) rest
            | Err e => Err e
            end
          else if Ascii.eqb c "{" then
            match skip_ws r with
            | String c' r' as r0 =>
                if Ascii.eqb c' "}" then Ok (JObject []) r'
                else parse_members depth' r0 []
            | EmptyString => parse_members depth' EmptyString []
            end
          else if Ascii.eqb c "[" then
            match skip_ws r with
            | String c' r' as r0 =>
                if Ascii.eqb c' "]" then Ok (JArray []) r'
                else parse_elements depth' r0 []
            | EmptyString => parse_elements depth' EmptyString []
            end
          else
            match scan_constant s with
            | Some (v, rest) => Ok v rest
            | None =>
                match match_number s with
                | Some (v, rest) => Ok v rest
                | None => Err (StopIteration (String.length s))
                end
            end
      end
  end
with parse_members (depth : nat) (s : string) (acc : pydict) : scanned json :=
  match depth with
  | O => Err DepthExceeded
  | S depth' =>
      match s with
      | String c r =>
          if Ascii.eqb c dquote then
            match scanstring (String.length s) r with
            | Err e => Err e
            | Ok key r1 =>
                match skip_ws r1 with
                | String c2 r3 as r2 =>
                    if Ascii.eqb c2 ":" then
                      match scan_once depth' (skip_ws r3) with
                      | Err e => Err e
                      | Ok v r5 =>
                          let acc' := dict_set key v acc in
                          match skip_ws r5 with
                          | String c6 r7 as r6 =>
                              if Ascii.eqb c6 "}" then Ok (JObject acc') r7
                              else if Ascii.eqb c6 ","
                                   then parse_members depth' (skip_ws r7) acc'
                                   else Err (DecodeError "Expecting ',' delimiter"
                                               (String.length r6))
                          | EmptyString =>
                              Err (DecodeError "Expecting ',' delimiter" 0)
                          end
                      end
                    else Err (DecodeError "Expecting ':' delimiter" (String.length r2))
                | EmptyString => Err (DecodeError "Expecting ':' delimiter" 0)
                end
            end
          else Err (DecodeError "Expecting property name enclosed in double quotes"
                      (String.length s))
      | EmptyString =>
          Err (DecodeError "Expecting property name enclosed in double quotes" 0)
      end
  end
with parse_elements (depth : nat) (s : string) (acc : list json) : scanned json :=
  match depth with
  | O => Err DepthExceeded
  | S depth' =>
      match scan_once depth' s with
      | Err e => Err e
      | Ok v r1 =>
          match skip_ws r1 with
          | String c2 r3 as r2 =>
              if Ascii.eqb c2 "]" then Ok (JArray (acc ++ [v])) r3
              else if Ascii.eqb c2 ","
                   then parse_elements depth' (skip_ws r3) (acc ++ [v])
                   else Err (DecodeError "Expecting ',' delimiter" (String.length r2))
          | EmptyString => Err (DecodeError "Expecting ',' delimiter" 0)
          end
      end
  end.

(** *** [json.loads] *)

(** The byte order mark U+FEFF in UTF-8. *)
Definition bom : string :=
  String (ascii_of_nat 239) (String (ascii_of_nat 187) (String (ascii_of_nat 191) EmptyString)).

(** [JSONDecodeError(msg, doc, pos)], from the length of the text that
    remained at the error. *)
Definition decode_error (msg doc : string) (remaining : nat) : exn :=
  let before := take (String.length doc - remaining) doc in
  JSONDecodeError msg doc (char_count before)
    (count_newlines before + 1) (chars_after_last_newline before + 1).

(** [json.loads(doc)] for a [str]: the document is one value between
    optional whitespace.  The depth handed to the scanner is enough for
    every text (lemma [depth_suffices]), so the decoder stops on no nesting.
    Two limits of the interpreter are left out, its recursion limit and the
    largest number of digits it converts to an [int]: the interpreter
    refuses texts beyond them, and the decoder here reads them. *)
Definition json_loads (doc : string) : outcome json :=
  if startswith bom doc
  then Raise (JSONDecodeError "Unexpected UTF-8 BOM (decode using utf-8-sig)" doc 0 1 1)
  else
    match scan_once (2 * String.length doc + 2) (skip_ws doc) with
    | Err (StopIteration rem) => Raise (decode_error "Expecting value" doc rem)
    | Err (DecodeError msg rem) => Raise (decode_error msg doc rem)
    | Err DepthExceeded =>
        Raise (RecursionError "maximum recursion depth exceeded while decoding a JSON document")
    | Ok v rest =>
        match skip_ws rest with
        | EmptyString => Return v
        | String _ _ as rest' => Raise (decode_error "Extra data" doc (String.length rest'))
        end
    end.

End Json.

Import PyStr Json.

(** [str(err)] *)
Definition str_exn (e : exn) : string :=
  match e with
  | TemplateError m => m
  | OpenAIError m => m
  | JSONDecodeError msg _ pos lineno colno =>
      msg +:+ ": line " +:+ of_nat lineno +:+ " column " +:+ of_nat colno
          +:+ " (char " +:+ of_nat pos +:+ ")"
  | KeyError key => repr_plain key
  | TypeError m => m
  | RecursionError m => m
  | OtherError _ m => m
  end.

(** [v[key]] for a string [key] *)
Definition subscript (v : json) (key : string) : outcome json :=
  match v with
  | JObject d =>
      match dict_get key d with
      | Some x => Return x
      | None => Raise (KeyError key)
      end
  | JArray _ => Raise (TypeError "list indices must be integers or slices, not str")
  | JString _ => Raise (TypeError "string indices must be integers, not 'str'")
  | JInt _ => Raise (TypeError "'int' object is not subscriptable")
  | JFloat _ => Raise (TypeError "'float' object is not subscriptable")
  | JBool _ => Raise (TypeError "'bool' object is not subscriptable")
  | JNull => Raise (TypeError "'NoneType' object is not subscriptable")
  end.

(** ** The host platform: intent responses and conversation records *)

Inductive IntentResponseType : Type := ACTION_DONE | ERROR.
Inductive IntentResponseErrorCode : Type := UNKNOWN.

Record IntentResponse : Type := {
  language : string;
  response_type : IntentResponseType;
  error_code : option IntentResponseErrorCode;
  speech : option json
}.

(** [intent.IntentResponse(language=...)] *)
Definition new_IntentResponse (lang : string) : IntentResponse :=
  {| language := lang; response_type := ACTION_DONE; error_code := None; speech := None |}.

Definition async_set_speech (r : IntentResponse) (s : json) : IntentResponse :=
  {| language := language r; response_type := response_type r;
     error_code := error_code r; speech := Some s |}.

(** [async_set_error] marks the response as an error and speaks the message. *)
Definition async_set_error (r : IntentResponse) (code : IntentResponseErrorCode)
    (message : string) : IntentResponse :=
  async_set_speech
    {| language := language r; response_type := ERROR;
       error_code := Some code; speech := speech r |}
    (JString message).

Record ConversationInput : Type := {
  text : string;
  input_conversation_id : option string;
  input_language : string
}.

Record ConversationResult : Type := {
  response : IntentResponse;
  conversation_id : string
}.

(** ** Messages, requests and the agent's state *)

Record message : Type := { role : string; content : string }.

(** The keyword arguments of [openai.ChatCompletion.acreate]. *)
Record request : Type := {
  api_key : json;
  model : json;
  messages : list message;
  max_tokens : json;
  top_p : json;
  temperature : json;
  user : string
}.

(** What a turn does to the outside, in order. *)
Inductive event : Type :=
| Completion (req : request)
| ServiceCall (domain service data : json)
| HistoryStore (session : string) (msgs : list message).

Record state : Type := {
  history : gmap string (list message);
  trace : list event
}.

(** The names and defaults of the options, imported from the integration's
    constants. *)
Record constants : Type := {
  CONF_PROMPT : string;
  CONF_CHAT_MODEL : string;
  CONF_MAX_TOKENS : string;
  CONF_TOP_P : string;
  CONF_TEMPERATURE : string;
  DEFAULT_PROMPT : json;
  DEFAULT_CHAT_MODEL : json;
  DEFAULT_MAX_TOKENS : json;
  DEFAULT_TOP_P : json;
  DEFAULT_TEMPERATURE : json
}.

Record ConfigEntry : Type := {
  entry_api_key : json;
  entry_options : gmap string json
}.

(** The collaborators of a turn: the template engine, the id generator,
    the model provider, the service registry, and what the interpreter
    prints for a traceback and for [repr]. *)
Record collaborators : Type := {
  async_render : json -> outcome string;
  ulid : string;
  acreate : request -> outcome string;
  async_call : json -> json -> json -> outcome unit;
  format_exc : exn -> string;
  repr : json -> string
}.

(** ** Computations that read and write the state and may raise *)

Definition M (A : Type) : Type := state -> outcome A * state.

Definition ret {A : Type} (a : A) : M A := fun s => (Return a, s).

Definition raise {A : Type} (e : exn) : M A := fun s => (Raise e, s).

Definition bind {A B : Type} (m : M A) (k : A -> M B) : M B :=
  fun s =>
    match m s with
    | (Return a, s') => k a s'
    | (Raise e, s') => (Raise e, s')
    end.

(** The outcome of a [try] body, handed to the [except] clauses. *)
Definition attempt {A : Type} (m : M A) : M (outcome A) :=
  fun s => let '(r, s') := m s in (Return r, s').

Definition lift {A : Type} (r : outcome A) : M A := fun s => (r, s).

Definition get_history : M (gmap string (list message)) :=
  fun s => (Return (history s), s).

Definition emit (e : event) : M unit :=
  fun s => (Return tt, {| history := history s; trace := trace s ++ [e] |}).

(** [self.history[session] = msgs] *)
Definition set_history (session : string) (msgs : list message) : M unit :=
  fun s =>
    (Return tt,
     {| history := <[session := msgs]> (history s);
        trace := trace s ++ [HistoryStore session msgs] |}).

Declare Scope turn_scope.
Delimit Scope turn_scope with turn.
Notation "x <- m ;; k" := (bind m (fun x => k))
  (at level 100, m at next level, right associativity) : turn_scope.
Notation "m ;;; k" := (bind m (fun _ => k))
  (at level 100, right associativity) : turn_scope.

(** ** The agent *)

Section Agent.

Variable K : constants.
Variable entry : ConfigEntry.
Variable W : collaborators.

Local Open Scope turn_scope.

(** [self.entry.options.get(key, default)] *)
Definition options_get (key : string) (dflt : json) : json :=
  default dflt (entry_options entry !! key).

(** [_async_generate_prompt]: the template is rendered with [ha_name] bound
    to the configured location name. *)
Definition async_generate_prompt (raw_prompt : json) : M string :=
  lift (async_render W raw_prompt).

Definition ChatCompletion_acreate (req : request) : M string :=
  emit (Completion req) ;;; lift (acreate W req).

Definition services_async_call (domain service data : json) : M unit :=
  emit (ServiceCall domain service data) ;;; lift (async_call W domain service data).

Definition nl : string := String newline EmptyString.

Definition instruction_suffix : string :=
  " Answer in syntactially perfect json and only json,".

Definition new_message (user_input : ConversationInput) : message :=
  {| role := "user"; content := text user_input +:+ instruction_suffix |}.

Definition got_it : message :=
  {| role := "assistant"; content := quoted "{'comment':'Got it!'}" |}.

(** A result whose response speaks [s]. *)
Definition spoken (user_input : ConversationInput) (s : json) (session : string)
    : ConversationResult :=
  {| response := async_set_speech (new_IntentResponse (input_language user_input)) s;
     conversation_id := session |}.

(** A result whose response is the error [message]. *)
Definition failed (user_input : ConversationInput) (message : string) (session : string)
    : ConversationResult :=
  {| response :=
       async_set_error (new_IntentResponse (input_language user_input)) UNKNOWN message;
     conversation_id := session |}.

(** The first [try] block after the completion: the reply is repaired,
    decoded, and its comment taken out.  The first component is the value
    of the variable [response] when the block ends, which is what the
    handler prints. *)
Definition parse_response (response : string) : string * outcome (json * pydict) :=
  let response := replace ",}" "}" response in
  (response,
   match json_loads response with
   | Raise err => Raise err
   | Return response_json =>
       match subscript response_json "comment", response_json with
       | Raise err, _ => Raise err
       | Return comment, JObject members =>
           Return (comment, dict_del "comment" members)
       | Return _, _ => Raise (TypeError "object does not support item deletion")
       end
   end).

(** The second [try] block: the command is executed when there is one and
    it is a [dict]. *)
Definition dispatch_command (response_json : pydict) : M unit :=
  match dict_get "command" response_json with
  | Some (JObject command) =>
      domain <- lift (subscript (JObject command) "domain") ;;
      service <- lift (subscript (JObject command) "service") ;;
      data <- lift (subscript (JObject command) "data") ;;
      services_async_call domain service data
  | _ => ret tt
  end.

(** The text its handler builds: the three subscripts are evaluated again. *)
Definition unable_to_execute (response_json : pydict) (err : exn) : M string :=
  c1 <- lift (subscript (JObject response_json) "command") ;;
  domain <- lift (subscript c1 "domain") ;;
  c2 <- lift (subscript (JObject response_json) "command") ;;
  service <- lift (subscript c2 "service") ;;
  c3 <- lift (subscript (JObject response_json) "command") ;;
  data <- lift (subscript c3 "data") ;;
  ret ("Unable to execute: (" +:+ repr W domain +:+ ", " +:+ repr W service +:+ ", "
         +:+ repr W data +:+ ") " +:+ nl +:+ " Error: " +:+ str_exn err +:+ nl
         +:+ format_exc W err).

Definition unable_to_parse (response : string) (err : exn) : string :=
  "Unable to parse: " +:+ response +:+ nl +:+ "Error: " +:+ str_exn err +:+ nl
    +:+ format_exc W err.

(** The keyword arguments of the completion call, with the options read
    from the entry. *)
Definition completion_request (conversation_id : string) (messages : list message)
    : request :=
  {| api_key := entry_api_key entry;
     model := options_get (CONF_CHAT_MODEL K) (DEFAULT_CHAT_MODEL K);
     messages := messages;
     max_tokens := options_get (CONF_MAX_TOKENS K) (DEFAULT_MAX_TOKENS K);
     top_p := options_get (CONF_TOP_P K) (DEFAULT_TOP_P K);
     temperature := options_get (CONF_TEMPERATURE K) (DEFAULT_TEMPERATURE K);
     user := conversation_id |}.

(** [async_process] from the completion call to its end: both branches of
    the session lookup continue here with their [conversation_id] and
    [messages]. *)
Definition complete_turn (user_input : ConversationInput) (conversation_id : string)
    (messages : list message) : M ConversationResult :=
  result <- attempt (ChatCompletion_acreate
                       (completion_request conversation_id messages)) ;;
  match result with
  | Raise (OpenAIError _ as err) =>
      ret (failed user_input
             ("Sorry, I had a problem talking to OpenAI: " +:+ str_exn err)
             conversation_id)
  | Raise err => raise err
  | Return response =>
      set_history conversation_id
        (messages ++ [{| role := "assistant"; content := response |}]) ;;;
      match parse_response response with
      | (response, Raise err) =>
          ret (spoken user_input (JString (unable_to_parse response err))
                 conversation_id)
      | (_, Return (comment, response_json)) =>
          executed <- attempt (dispatch_command response_json) ;;
          match executed with
          | Raise err =>
              comment <- unable_to_execute response_json err ;;
              ret (spoken user_input (JString comment) conversation_id)
          | Return _ => ret (spoken user_input comment conversation_id)
          end
      end
  end.

(** [async_process]: one turn, from the session lookup on. *)
Definition async_process (user_input : ConversationInput) : M ConversationResult :=
  let raw_prompt := options_get (CONF_PROMPT K) (DEFAULT_PROMPT K) in
  let new_message := new_message user_input in
  stored <- get_history ;;
  match input_conversation_id user_input
          ≫= (fun id => (fun old => (id, old)) <$> stored !! id) with
  | Some (conversation_id, old) =>
      complete_turn user_input conversation_id (old ++ [new_message])
  | None =>
      let conversation_id := ulid W in
      rendered <- attempt (async_generate_prompt raw_prompt) ;;
      match rendered with
      | Raise (TemplateError _ as err) =>
          ret (failed user_input
                 ("Sorry, I had a problem with my template: " +:+ str_exn err)
                 conversation_id)
      | Raise err => raise err
      | Return prompt =>
          complete_turn user_input conversation_id
            [{| role := "user"; content := prompt |}; got_it; new_message]
      end
  end.

(** *** Vocabulary of the statements *)

(** A turn starts with the stored histories and nothing done yet. *)
Definition start (h : gmap string (list message)) : state :=
  {| history := h; trace := [] |}.

(** The session of the input is not in the store (or none was given). *)
Definition unknown_session (user_input : ConversationInput)
    (h : gmap string (list message)) : Prop :=
  forall id, input_conversation_id user_input = Some id -> h !! id = None.

(** The two ways a turn gets to the completion call: with the session id
    and the message list it has then. *)
Inductive prompt_built (user_input : ConversationInput)
    (h : gmap string (list message)) : string -> list message -> Prop :=
| known_session (id : string) (old : list message) :
    input_conversation_id user_input = Some id ->
    h !! id = Some old ->
    prompt_built user_input h id (old ++ [new_message user_input])
| new_session (prompt : string) :
    unknown_session user_input h ->
    async_render W (options_get (CONF_PROMPT K) (DEFAULT_PROMPT K)) = Return prompt ->
    prompt_built user_input h (ulid W)
      [{| role := "user"; content := prompt |}; got_it; new_message user_input].

Definition assistant (reply : string) : message :=
  {| role := "assistant"; content := reply |}.

(** The state in which the reply is parsed: the request is logged and the
    history of the session is overwritten with the messages and the reply. *)
Definition committed (id : string) (msgs : list message) (raw : string) (s : state)
    : state :=
  {| history := <[id := msgs ++ [assistant raw]]> (history s);
     trace := trace s ++ [Completion (completion_request id msgs);
                          HistoryStore id (msgs ++ [assistant raw])] |}.

End Agent.

(** The parts of a trace. *)
Definition stores (tr : list event) : list (string * list message) :=
  omap (fun e => match e with HistoryStore id msgs => Some (id, msgs) | _ => None end) tr.

Definition completions (tr : list event) : list request :=
  omap (fun e => match e with Completion req => Some req | _ => None end) tr.

Definition service_calls (tr : list event) : list (json * json * json) :=
  omap (fun e => match e with ServiceCall d sv dt => Some (d, sv, dt) | _ => None end) tr.

(** The first of the keys the dispatch reads that a command lacks. *)
Definition first_missing (command : pydict) : option string :=
  if negb (dict_mem "domain" command) then Some "domain"
  else if negb (dict_mem "service" command) then Some "service"
  else if negb (dict_mem "data" command) then Some "data"
  else None.

(** The speech of a result, when it is a text. *)
Definition spoken_text (r : ConversationResult) : option string :=
  match speech (response r) with
  | Some (JString t) => Some t
  | _ => None
  end.

(** ** A sample installation

    Concrete collaborators on which the statements are exercised: the
    provider answers [reply], the service registry knows no service, and
    the traceback names the exception. *)

Definition sample_constants : constants :=
  {| CONF_PROMPT := "prompt"; CONF_CHAT_MODEL := "chat_model";
     CONF_MAX_TOKENS := "max_tokens"; CONF_TOP_P := "top_p";
     CONF_TEMPERATURE := "temperature";
     DEFAULT_PROMPT := JString "You are the voice assistant of {{ ha_name }}.";
     DEFAULT_CHAT_MODEL := JString "gpt-3.5-turbo";
     DEFAULT_MAX_TOKENS := JInt 150;
     DEFAULT_TOP_P := JInt 1;
     DEFAULT_TEMPERATURE := JFloat "0.5" |}.

Definition sample_entry : ConfigEntry :=
  {| entry_api_key := JString "sk-sample"; entry_options := ∅ |}.

Definition exn_name (e : exn) : string :=
  match e with
  | TemplateError _ => "homeassistant.exceptions.TemplateError"
  | OpenAIError _ => "openai.error.OpenAIError"
  | JSONDecodeError _ _ _ _ _ => "json.decoder.JSONDecodeError"
  | KeyError _ => "KeyError"
  | TypeError _ => "TypeError"
  | RecursionError _ => "RecursionError"
  | OtherError cls _ => cls
  end.

Definition sample_format_exc (e : exn) : string :=
  "Traceback (most recent call last):" +:+ nl
    +:+ "  File '__init__.py', in async_process" +:+ nl
    +:+ exn_name e +:+ ": " +:+ str_exn e +:+ nl.

Definition sample_repr (v : json) : string :=
  match v with
  | JString s => repr_plain s
  | JObject [] => "{}"
  | _ => "<object>"
  end.

Definition sample_world (rendered reply : outcome string) : collaborators :=
  {| async_render := fun _ => rendered;
     ulid := "01H4ZJ8Q6T0000000000000000";
     acreate := fun _ => reply;
     async_call := fun _ _ _ =>
       Raise (OtherError "homeassistant.exceptions.ServiceNotFound"
                "Unable to find service");
     format_exc := sample_format_exc;
     repr := sample_repr |}.

Definition sample_input : ConversationInput :=
  {| text := "turn on the light"; input_conversation_id := None; input_language := "en" |}.

Definition follow_up_input : ConversationInput :=
  {| text := "and the fan"; input_conversation_id := Some "01H4ZJ7M2K0000000000000000";
     input_language := "en" |}.

(** An input that names a session the store does not hold. *)
Definition stale_input : ConversationInput :=
  {| text := "turn on the light"; input_conversation_id := Some "01H4ZJ00000000000000000000";
     input_language := "en" |}.

Definition sample_history : gmap string (list message) :=
  {[ "01H4ZJ7M2K0000000000000000" :=
       [{| role := "user"; content := "You are the voice assistant of Home." |};
        got_it;
        {| role := "user";
           content := "turn on the light Answer in syntactially perfect json and only json," |};
        assistant (quoted "{'comment':'Done'}")] ]}.

(** ** More vocabulary for the turn *)

(** The service call a decoded reply asks for: the three values of its
    command when the command is a mapping that has them. *)
Definition requested_calls (response_json : pydict) : list (json * json * json) :=
  match dict_get "command" response_json with
  | Some (JObject command) =>
      match dict_get "domain" command, dict_get "service" command,
            dict_get "data" command with
      | Some dm, Some sv, Some dt => [(dm, sv, dt)]
      | _, _, _ => []
      end
  | _ => []
  end.

(** The histories the agent writes: the two seed messages, then pairs of a
    user message that ends with the instruction suffix and the reply to it. *)
Inductive well_formed : list message -> Prop :=
| first_exchange (prompt utterance reply : string) :
    well_formed
      [{| role := "user"; content := prompt |};
       {| role := "assistant"; content := quoted "{'comment':'Got it!'}" |};
       {| role := "user"; content := utterance +:+ instruction_suffix |};
       {| role := "assistant"; content := reply |}]
| next_exchange (msgs : list message) (utterance reply : string) :
    well_formed msgs ->
    well_formed
      (msgs ++ [{| role := "user"; content := utterance +:+ instruction_suffix |};
                {| role := "assistant"; content := reply |}]).

(** The roles of [n] exchanges. *)
Fixpoint alternating_roles (n : nat) : list string :=
  match n with
  | O => []
  | S k => "user" :: "assistant" :: alternating_roles k
  end.

(** The store after a sequence of turns, each with its own collaborators:
    the agent keeps [self.history] from one turn to the next, also when a
    turn raises. *)
Fixpoint run_turns (K : constants) (entry : ConfigEntry)
    (turns : list (collaborators * ConversationInput))
    (h : gmap string (list message)) : gmap string (list message) :=
  match turns with
  | [] => h
  | (W, user_input) :: rest =>
      run_turns K entry rest (history (snd (async_process K entry W user_input (start h))))
  end.

(** Collaborators like [sample_world] whose service registry accepts
    every call. *)
Definition obliging_world (rendered reply : outcome string) : collaborators :=
  {| async_render := fun _ => rendered;
     ulid := "01H4ZJ8Q6T0000000000000000";
     acreate := fun _ => reply;
     async_call := fun _ _ _ => Return tt;
     format_exc := sample_format_exc;
     repr := sample_repr |}.

Definition light_on_reply : string :=
  quoted "{'comment':'On it','command':{'domain':'light','service':'turn_on','data':{}}}".

(** An entry whose options set the model and the prompt. *)
Definition tuned_entry : ConfigEntry :=
  {| entry_api_key := JString "sk-sample";
     entry_options :=
       {[ "chat_model" := JString "gpt-4";
          "prompt" := JString "Answer as {{ ha_name }} would." ]} |}.

(** An input that goes on with the session [sample_world] mints. *)
Definition next_input : ConversationInput :=
  {| text := "and the fan"; input_conversation_id := Some "01H4ZJ8Q6T0000000000000000";
     input_language := "en" |}.

(** ** Setting the integration up and unloading it *)

(** [OpenAIAgent]: the entry it was made for and its histories. *)
Record OpenAIAgent : Type := {
  agent_entry : ConfigEntry;
  agent_history : gmap string (list message)
}.

(** [OpenAIAgent.__init__]: no history yet. *)
Definition new_agent (entry : ConfigEntry) : OpenAIAgent :=
  {| agent_entry := entry; agent_history := ∅ |}.

(** A turn of an agent, on the histories it holds. *)
Definition agent_process (K : constants) (W : collaborators) (agent : OpenAIAgent)
    (user_input : ConversationInput) : outcome ConversationResult * state :=
  async_process K (agent_entry agent) W user_input (start (agent_history agent)).

(** What the host holds for the integration: under [hass.data], for each
    domain, the dictionary from entry ids to API keys; and the agents of
    the conversation component, by entry id. *)
Record hass_state : Type := {
  hass_data : gmap string (gmap string json);
  hass_agents : gmap string OpenAIAgent
}.

(** How the listing of the provider's engines ends: it returns, or raises
    an [AuthenticationError] (which is an [OpenAIError]), another
    [OpenAIError], or something else. *)
Inductive engine_listing : Type :=
| Listed
| ListAuthenticationError (msg : string)
| ListOpenAIError (msg : string)
| ListRaised (e : exn).

(** [ConfigEntryNotReady(err)] and [HomeAssistantError(message)] *)
Definition ConfigEntryNotReady (msg : string) : exn :=
  OtherError "homeassistant.exceptions.ConfigEntryNotReady" msg.

Definition HomeAssistantError (msg : string) : exn :=
  OtherError "homeassistant.exceptions.HomeAssistantError" msg.

Definition IndexError (msg : string) : exn := OtherError "IndexError" msg.

(** [async_setup_entry]: the key of the entry is tried on a listing of the
    engines (with a timeout of ten seconds); then it is stored under the
    domain and an agent is set for the entry. *)
Definition async_setup_entry (DOMAIN : string) (Engine_list : json -> Z -> engine_listing)
    (entry_id : string) (entry : ConfigEntry) (hass : hass_state)
    : outcome bool * hass_state :=
  match Engine_list (entry_api_key entry) 10%Z with
  | ListAuthenticationError _ => (Return false, hass)
  | ListOpenAIError msg => (Raise (ConfigEntryNotReady msg), hass)
  | ListRaised e => (Raise e, hass)
  | Listed =>
      (Return true,
       {| hass_data :=
            <[DOMAIN := <[entry_id := entry_api_key entry]>
                          (default ∅ (hass_data hass !! DOMAIN))]> (hass_data hass);
          hass_agents := <[entry_id := new_agent entry]> (hass_agents hass) |})
  end.

(** [async_unload_entry]: the key is popped from the dictionary of the
    domain (both lookups raise when the key is missing), then the agent is
    unset. *)
Definition async_unload_entry (DOMAIN entry_id : string) (hass : hass_state)
    : outcome bool * hass_state :=
  match hass_data hass !! DOMAIN with
  | None => (Raise (KeyError DOMAIN), hass)
  | Some keys =>
      match keys !! entry_id with
      | None => (Raise (KeyError entry_id), hass)
      | Some _ =>
          (Return true,
           {| hass_data := <[DOMAIN := delete entry_id keys]> (hass_data hass);
              hass_agents := delete entry_id (hass_agents hass) |})
      end
  end.

(** ** The image service *)

(** The data of a call of the service, as its schema leaves them. *)
Record image_call : Type := {
  call_config_entry : string;
  call_prompt : string;
  call_size : string
}.

(** The keyword arguments of [openai.Image.acreate]. *)
Record image_request : Type := {
  image_api_key : json;
  image_prompt : string;
  image_n : Z;
  image_size : string
}.

(** [render_image]: [Image_acreate] gives the list under the key data of
    the provider's response, of which the first item is returned. *)
Definition render_image (DOMAIN : string)
    (Image_acreate : image_request -> outcome (list json))
    (hass : hass_state) (call : image_call) : outcome json :=
  match hass_data hass !! DOMAIN with
  | None => Raise (KeyError DOMAIN)
  | Some keys =>
      match keys !! call_config_entry call with
      | None => Raise (KeyError (call_config_entry call))
      | Some key =>
          match Image_acreate
                  {| image_api_key := key;
                     image_prompt := call_prompt call;
                     image_n := 1%Z;
                     image_size := call_size call +:+ "x" +:+ call_size call |} with
          | Raise (OpenAIError _ as err) =>
              Raise (HomeAssistantError ("Error generating image: " +:+ str_exn err))
          | Raise err => Raise err
          | Return [] => Raise (IndexError "list index out of range")
          | Return (first :: _) => Return first
          end
      end
  end.

(** Sample values for the entry points. *)
Definition sample_hass : hass_state :=
  {| hass_data := {[ "openai_conversation" := {[ "entry-a" := JString "sk-a" ]} ]};
     hass_agents :=
       {[ "entry-a" := {| agent_entry := tuned_entry; agent_history := sample_history |} ]} |}.

Definition sample_image_call : image_call :=
  {| call_config_entry := "entry-b"; call_prompt := "a lighthouse at dusk";
     call_size := "512" |}.

(** ** Assembling the assistant from abilities ([get_ai])

    An ability gives a system prompt, a chat history and the functions it
    registers; each of the three calls may raise.  The types of chat
    messages and of functions are those of the chat library and are left
    open. *)

Section Brains.

Variables ChatMessage AIFunction : Type.

Record ability : Type := {
  ability_name : string;
  sys_prompt : outcome string;
  chat_history : outcome (list ChatMessage);
  registered_functions : outcome (list AIFunction)
}.

Record OpenAIEngine : Type := {
  engine_api_key : string;
  engine_model : string;
  max_context_size : Z;
  engine_api_base : string
}.

Record Kani : Type := {
  kani_engine : OpenAIEngine;
  kani_system_prompt : string;
  kani_chat_history : list ChatMessage;
  kani_functions : list AIFunction
}.

(** The loop of [get_ai] over the abilities, with the three accumulators. *)
Fixpoint register_abilities (abilities : list ability) (system_prompt : string)
    (history : list ChatMessage) (all_functions : list AIFunction)
    : outcome (string * list ChatMessage * list AIFunction) :=
  match abilities with
  | [] => Return (system_prompt, history, all_functions)
  | a :: rest =>
      match sys_prompt a with
      | Raise e => Raise e
      | Return prompt =>
          match chat_history a with
          | Raise e => Raise e
          | Return hist =>
              match registered_functions a with
              | Raise e => Raise e
              | Return functions =>
                  register_abilities rest (system_prompt +:+ prompt)
                    (history ++ hist) (all_functions ++ functions)
              end
          end
      end
  end.

Definition get_ai (openai_key api_base model : string) (abilities : list ability)
    : outcome Kani :=
  let engine :=
    {| engine_api_key := openai_key; engine_model := model;
       max_context_size := 4096%Z; engine_api_base := api_base |} in
  match register_abilities abilities EmptyString [] [] with
  | Raise e => Raise e
  | Return (system_prompt, history, all_functions) =>
      Return {| kani_engine := engine; kani_system_prompt := system_prompt;
                kani_chat_history := history; kani_functions := all_functions |}
  end.

(** An ability whose three calls return. *)
Definition able (name prompt : string) (hist : list ChatMessage)
    (functions : list AIFunction) : ability :=
  {| ability_name := name; sys_prompt := Return prompt;
     chat_history := Return hist; registered_functions := Return functions |}.

(** The first exception an ability raises, in the order of its calls. *)
Definition ability_failure (a : ability) : option exn :=
  match sys_prompt a, chat_history a, registered_functions a with
  | Raise e, _, _ => Some e
  | Return _, Raise e, _ => Some e
  | Return _, Return _, Raise e => Some e
  | Return _, Return _, Return _ => None
  end.

Definition ability_prompt (a : ability) : string :=
  match sys_prompt a with Return p => p | Raise _ => EmptyString end.

Definition ability_history (a : ability) : list ChatMessage :=
  match chat_history a with Return l => l | Raise _ => [] end.

Definition ability_functions (a : ability) : list AIFunction :=
  match registered_functions a with Return l => l | Raise _ => [] end.

(** The texts of a list, one after the other. *)
Fixpoint join (texts : list string) : string :=
  match texts with
  | [] => EmptyString
  | t :: rest => t +:+ join rest
  end.

End Brains.

Arguments ability_name {ChatMessage AIFunction} _.
Arguments sys_prompt {ChatMessage AIFunction} _.
Arguments chat_history {ChatMessage AIFunction} _.
Arguments registered_functions {ChatMessage AIFunction} _.
Arguments Build_ability {ChatMessage AIFunction} _ _ _ _.
Arguments kani_engine {ChatMessage AIFunction} _.
Arguments kani_system_prompt {ChatMessage AIFunction} _.
Arguments kani_chat_history {ChatMessage AIFunction} _.
Arguments kani_functions {ChatMessage AIFunction} _.
Arguments Build_Kani {ChatMessage AIFunction} _ _ _ _.
Arguments register_abilities {ChatMessage AIFunction} _ _ _ _.
Arguments get_ai {ChatMessage AIFunction} _ _ _ _.
Arguments able {ChatMessage AIFunction} _ _ _ _.
Arguments ability_failure {ChatMessage AIFunction} _.
Arguments ability_prompt {ChatMessage AIFunction} _.
Arguments ability_history {ChatMessage AIFunction} _.
Arguments ability_functions {ChatMessage AIFunction} _.

(** Sample abilities: one for the home, one whose history cannot be read. *)
Definition home_ability : ability string string :=
  able "homeassistant" "You control a home. " ["The lights are off."] ["call_service"].

Definition search_ability : ability string string :=
  able "google" "You can search the web. " [] ["search"; "open_page"].

Definition broken_ability : ability string string :=
  {| ability_name := "calendar"; sys_prompt := Return "You know the calendar. ";
     chat_history := Raise (OtherError "ConnectionError" "calendar unreachable");
     registered_functions := Return ["list_events"] |}.

(** ** Signing in with Google ([authenticate_with_google])

    The credentials, the sign-in flow and what the Google libraries do with
    them are left open; the files are a map from paths to contents. *)

Section GoogleAuth.

Variables Credentials InstalledAppFlow : Type.

(** The library calls of [authenticate_with_google].  A token file is read
    through its content; [refresh] gives the credentials as the call leaves
    them; the client secrets are read from the content of their file, when
    there is one; the token file is opened for writing, which may fail, and
    then holds the JSON of the credentials. *)
Record google_auth : Type := {
  from_authorized_user_file : string -> outcome Credentials;
  valid : Credentials -> bool;
  expired : Credentials -> bool;
  refresh_token : Credentials -> option string;
  refresh : Credentials -> outcome Credentials;
  from_client_secrets_file : option string -> list string -> outcome InstalledAppFlow;
  run_local_server : InstalledAppFlow -> Z -> outcome Credentials;
  to_json : Credentials -> string;
  open_for_writing : string -> outcome unit
}.

Definition GOOGLE_SCOPES : list string :=
  ["https://www.googleapis.com/auth/calendar.events";
   "https://www.googleapis.com/auth/tasks"].

(** What the function does to the outside besides the files. *)
Inductive auth_event : Type :=
| Refreshed
| RanLocalServer (port : Z).

(** The truth value of a refresh token: there is one and it is not empty. *)
Definition has_refresh_token (G : google_auth) (creds : Credentials) : bool :=
  match refresh_token G creds with
  | Some (String _ _) => true
  | _ => false
  end.

(** The body of the [try] block. *)
Definition authenticate_body (G : google_auth) (files : gmap string string)
    : outcome Credentials * gmap string string * list auth_event :=
  let token_path := "token.json" in
  let stored :=
    match files !! token_path with
    | Some content =>
        match from_authorized_user_file G content with
        | Return creds => Return (Some creds)
        | Raise e => Raise e
        end
    | None => Return None
    end in
  let sign_in :=
    match from_client_secrets_file G (files !! "client_secret.json") GOOGLE_SCOPES with
    | Raise e => (Raise e, [])
    | Return flow => (run_local_server G flow 8035%Z, [RanLocalServer 8035%Z])
    end in
  let save (renewed : outcome Credentials * list auth_event) :=
    match renewed with
    | (Raise e, events) => (Raise e, files, events)
    | (Return creds, events) =>
        match open_for_writing G token_path with
        | Raise e => (Raise e, files, events)
        | Return _ => (Return creds, <[token_path := to_json G creds]> files, events)
        end
    end in
  match stored with
  | Raise e => (Raise e, files, [])
  | Return None => save sign_in
  | Return (Some creds) =>
      if valid G creds then (Return creds, files, [])
      else if expired G creds && has_refresh_token G creds
           then save (refresh G creds, [Refreshed])
           else save sign_in
  end.

(** [authenticate_with_google]: every exception gives [None]. *)
Definition authenticate_with_google (G : google_auth) (files : gmap string string)
    : option Credentials * gmap string string * list auth_event :=
  match authenticate_body G files with
  | (Return creds, files', events) => (Some creds, files', events)
  | (Raise _, files', events) => (None, files', events)
  end.

End GoogleAuth.

Arguments from_authorized_user_file {Credentials InstalledAppFlow} _ _.
Arguments valid {Credentials InstalledAppFlow} _ _.
Arguments expired {Credentials InstalledAppFlow} _ _.
Arguments refresh_token {Credentials InstalledAppFlow} _ _.
Arguments refresh {Credentials InstalledAppFlow} _ _.
Arguments from_client_secrets_file {Credentials InstalledAppFlow} _ _ _.
Arguments run_local_server {Credentials InstalledAppFlow} _ _ _.
Arguments to_json {Credentials InstalledAppFlow} _ _.
Arguments open_for_writing {Credentials InstalledAppFlow} _ _.
Arguments has_refresh_token {Credentials InstalledAppFlow} _ _.
Arguments authenticate_body {Credentials InstalledAppFlow} _ _.
Arguments authenticate_with_google {Credentials InstalledAppFlow} _ _.

(** Sample libraries: the credentials are a token text and a flag saying
    whether they are still good; a token file holds the text, with a star
    in front when the credentials are good. *)
Definition sample_google : google_auth (string * bool) unit :=
  {| from_authorized_user_file := fun content =>
       match content with
       | String "*" token => Return (token, true)
       | EmptyString => Raise (OtherError "ValueError" "empty token file")
       | _ => Return (content, false)
       end;
     valid := fun creds => snd creds;
     expired := fun creds => negb (snd creds);
     refresh_token := fun creds => Some (fst creds);
     refresh := fun creds => Return (fst creds, true);
     from_client_secrets_file := fun content _ =>
       match content with
       | Some _ => Return tt
       | None => Raise (OtherError "FileNotFoundError" "client_secret.json")
       end;
     run_local_server := fun _ _ => Return ("fresh", true);
     to_json := fun creds => if snd creds then String "*" (fst creds) else fst creds;
     open_for_writing := fun _ => Return tt |}.

Definition sample_files : gmap string string :=
  {[ "client_secret.json" := "secret"; "notes.txt" := "keep" ]}.

(** ** Strings and dictionaries *)

Lemma append_empty (s : string) : EmptyString +:+ s = s.
Proof. reflexivity. Qed.

Lemma append_String (c : ascii) (r s : string) :
  String c r +:+ s = String c (r +:+ s).
Proof. reflexivity. Qed.

Lemma startswith_app (p s : string) : startswith p (p +:+ s) = true.
Proof.
  induction p as [|c p IH]; [reflexivity|].
  rewrite append_String. cbn [startswith].
  rewrite Ascii.eqb_refl. exact IH.
Qed.

Lemma contains_prefix (sub post : string) : contains sub (sub +:+ post) = true.
Proof.
  pose proof (startswith_app sub post) as H.
  destruct (sub +:+ post); cbn [contains]; rewrite H; reflexivity.
Qed.

Lemma contains_app (pre sub post : string) :
  contains sub (pre +:+ sub +:+ post) = true.
Proof.
  induction pre as [|c pre IH].
  - rewrite append_empty. apply contains_prefix.
  - rewrite append_String. cbn [contains]. rewrite IH. apply orb_true_r.
Qed.

(** A text without occurrence of [old] is left as it is. *)
Lemma replace_absent (old new s : string) :
  contains old s = false -> replace old new s = s.
Proof.
  unfold replace. induction s as [|c r IH]; intros H; [reflexivity|].
  cbn [contains] in H. apply orb_false_iff in H as [H1 H2].
  cbn [replace_from]. rewrite H1, (IH H2). reflexivity.
Qed.

Lemma dict_get_del_ne (k k' : string) (d : pydict) :
  k <> k' -> dict_get k (dict_del k' d) = dict_get k d.
Proof.
  intros Hne. induction d as [|[x v] d IH]; [reflexivity|].
  cbn [dict_del dict_get].
  destruct (String.eqb_spec x k') as [->|Hx].
  - destruct (String.eqb_spec k' k) as [->|_]; [congruence|reflexivity].
  - cbn [dict_get]. rewrite IH. reflexivity.
Qed.

(** ** The parts of a trace *)

Lemma stores_app (a b : list event) : stores (a ++ b) = stores a ++ stores b.
Proof. apply omap_app. Qed.

Lemma completions_app (a b : list event) :
  completions (a ++ b) = completions a ++ completions b.
Proof. apply omap_app. Qed.

Lemma service_calls_app (a b : list event) :
  service_calls (a ++ b) = service_calls a ++ service_calls b.
Proof. apply omap_app. Qed.

(** ** The decoder never exceeds its depth *)















(** ** One turn, step by step *)

Section Turn.

Variable K : constants.
Variable entry : ConfigEntry.
Variable W : collaborators.

Implicit Types (user_input : ConversationInput) (s : state) (id : string)
  (msgs : list message) (h : gmap string (list message)).

(** The dispatch touches no history and makes at most service calls. *)
Lemma dispatch_command_run (d : pydict) s :
  exists r calls,
    dispatch_command W d s = (r, {| history := history s; trace := trace s ++ calls |})
    /\ stores calls = [] /\ completions calls = [].
Proof.
  destruct s as [h tr].
  unfold dispatch_command, bind, lift, services_async_call, emit, ret.
  cbn [history trace].
  destruct (dict_get "command" d) as [[| | | | | |command]|];
    try (exists (Return tt), (@nil event); rewrite app_nil_r; done).
  destruct (subscript (JObject command) "domain") as [dm|e];
    [|exists (Raise e), (@nil event); rewrite app_nil_r; done].
  destruct (subscript (JObject command) "service") as [sv|e];
    [|exists (Raise e), (@nil event); rewrite app_nil_r; done].
  destruct (subscript (JObject command) "data") as [dt|e];
    [|exists (Raise e), (@nil event); rewrite app_nil_r; done].
  destruct (async_call W dm sv dt) as [[]|e] eqn:Hcall.
  - exists (Return tt), [ServiceCall dm sv dt]. cbn. rewrite ?Hcall. done.
  - exists (Raise e), [ServiceCall dm sv dt]. cbn. rewrite ?Hcall. done.
Qed.

(** Building the text of the dispatch error changes nothing. *)
Lemma unable_to_execute_run (d : pydict) (err : exn) s :
  exists r, unable_to_execute W d err s = (r, s).
Proof.
  unfold unable_to_execute, bind, lift, ret.
  repeat match goal with
         | |- context [subscript ?v ?k] => destruct (subscript v k)
         end; eauto.
Qed.

(** *** From the session lookup to the completion call *)

Lemma async_process_known user_input h id (old : list message) :
  input_conversation_id user_input = Some id ->
  h !! id = Some old ->
  async_process K entry W user_input (start h)
  = complete_turn K entry W user_input id (old ++ [new_message user_input]) (start h).
Proof.
  intros Hid Hold. unfold async_process, bind, get_history, start.
  cbn [history]. rewrite Hid. cbn. rewrite Hold. reflexivity.
Qed.

Lemma lookup_unknown user_input h :
  unknown_session user_input h ->
  input_conversation_id user_input
    ≫= (fun id => (fun old : list message => (id, old)) <$> h !! id) = None.
Proof.
  intros Hunk. destruct (input_conversation_id user_input) as [id|] eqn:Hid;
    [|reflexivity].
  cbn. rewrite (Hunk id Hid). reflexivity.
Qed.

Lemma async_process_new user_input h (prompt : string) :
  unknown_session user_input h ->
  async_render W (options_get entry (CONF_PROMPT K) (DEFAULT_PROMPT K)) = Return prompt ->
  async_process K entry W user_input (start h)
  = complete_turn K entry W user_input (ulid W)
      [{| role := "user"; content := prompt |}; got_it; new_message user_input]
      (start h).
Proof.
  intros Hunk Hrender. unfold async_process, bind, get_history, start.
  cbn [history]. rewrite (lookup_unknown _ _ Hunk).
  unfold attempt, async_generate_prompt, lift. rewrite Hrender. reflexivity.
Qed.

Lemma async_process_built user_input h id msgs :
  prompt_built K entry W user_input h id msgs ->
  async_process K entry W user_input (start h)
  = complete_turn K entry W user_input id msgs (start h).
Proof.
  intros [id' old Hid Hold | prompt Hunk Hrender].
  - apply async_process_known; assumption.
  - apply async_process_new; assumption.
Qed.

(** *** From the completion call to the end *)

Lemma complete_turn_provider_failed user_input id msgs s (m : string) :
  acreate W (completion_request K entry id msgs) = Raise (OpenAIError m) ->
  complete_turn K entry W user_input id msgs s
  = (Return (failed user_input ("Sorry, I had a problem talking to OpenAI: " +:+ m) id),
     {| history := history s;
        trace := trace s ++ [Completion (completion_request K entry id msgs)] |}).
Proof.
  intros Hfail. unfold complete_turn, bind, attempt, ChatCompletion_acreate, emit, lift.
  cbn. rewrite Hfail. reflexivity.
Qed.

Lemma complete_turn_unparsed user_input id msgs s (raw shown : string) (err : exn) :
  acreate W (completion_request K entry id msgs) = Return raw ->
  parse_response raw = (shown, Raise err) ->
  complete_turn K entry W user_input id msgs s
  = (Return (spoken user_input (JString (unable_to_parse W shown err)) id),
     committed K entry id msgs raw s).
Proof.
  intros Hreply Hparse.
  unfold complete_turn, bind, attempt, ChatCompletion_acreate, emit, lift, set_history.
  cbn -[parse_response]. rewrite Hreply, Hparse. unfold committed, ret, assistant.
  cbn [history trace]. rewrite <- app_assoc. reflexivity.
Qed.

Lemma complete_turn_parsed user_input id msgs s (raw shown : string)
    (comment : json) (d : pydict) :
  acreate W (completion_request K entry id msgs) = Return raw ->
  parse_response raw = (shown, Return (comment, d)) ->
  complete_turn K entry W user_input id msgs s
  = match dispatch_command W d (committed K entry id msgs raw s) with
    | (Return _, s') => (Return (spoken user_input comment id), s')
    | (Raise err, s') =>
        match unable_to_execute W d err s' with
        | (Return t, s'') => (Return (spoken user_input (JString t) id), s'')
        | (Raise err', s'') => (Raise err', s'')
        end
    end.
Proof.
  intros Hreply Hparse.
  unfold complete_turn, bind, attempt, ChatCompletion_acreate, emit, lift, set_history.
  cbn -[parse_response]. rewrite Hreply, Hparse. unfold committed, ret, assistant.
  cbn [history trace]. rewrite <- app_assoc. cbn [app].
  destruct (dispatch_command W d _) as [[[]|err] s']; [reflexivity|].
  destruct (unable_to_execute W d err s') as [[t|err'] s'']; reflexivity.
Qed.

(** Whatever the reply holds, the turn goes on from [committed] and adds
    nothing to the trace but service calls. *)
Lemma complete_turn_replied user_input id msgs s (raw : string) :
  acreate W (completion_request K entry id msgs) = Return raw ->
  exists r calls,
    complete_turn K entry W user_input id msgs s
    = (r, {| history := history (committed K entry id msgs raw s);
             trace := trace (committed K entry id msgs raw s) ++ calls |})
    /\ stores calls = [] /\ completions calls = [].
Proof.
  intros Hreply.
  destruct (parse_response raw) as [shown [[comment d]|err]] eqn:Hparse.
  - rewrite (complete_turn_parsed _ _ _ _ _ _ _ _ Hreply Hparse).
    destruct (dispatch_command_run d (committed K entry id msgs raw s))
      as (r & calls & -> & Hst & Hco).
    destruct r as [[]|err].
    + exists (Return (spoken user_input comment id)), calls. done.
    + destruct (unable_to_execute_run d err
                  {| history := history (committed K entry id msgs raw s);
                     trace := trace (committed K entry id msgs raw s) ++ calls |})
        as (r' & ->).
      destruct r' as [t|err'].
      * exists (Return (spoken user_input (JString t) id)), calls. done.
      * exists (Raise err'), calls. done.
  - rewrite (complete_turn_unparsed _ _ _ _ _ _ _ Hreply Hparse).
    exists (Return (spoken user_input (JString (unable_to_parse W shown err)) id)),
      (@nil event).
    rewrite app_nil_r. destruct (committed K entry id msgs raw s). done.
Qed.

(** An exception of the provider that is no [OpenAIError] is not caught. *)
Lemma complete_turn_provider_raised user_input id msgs s (err : exn) :
  acreate W (completion_request K entry id msgs) = Raise err ->
  snd (complete_turn K entry W user_input id msgs s)
  = {| history := history s;
       trace := trace s ++ [Completion (completion_request K entry id msgs)] |}.
Proof.
  intros Hfail. unfold complete_turn, bind, attempt, ChatCompletion_acreate, emit, lift.
  cbn -[parse_response]. rewrite Hfail. destruct err; reflexivity.
Qed.

(** The provider is called once in a turn that gets to the completion call,
    with the message list built for it. *)
Lemma complete_turn_sends user_input id msgs s :
  completions (trace (snd (complete_turn K entry W user_input id msgs s)))
  = completions (trace s) ++ [completion_request K entry id msgs].
Proof.
  destruct (acreate W (completion_request K entry id msgs)) as [raw|err] eqn:Hreply.
  - destruct (complete_turn_replied user_input id msgs s raw Hreply)
      as (r & calls & -> & _ & Hco).
    cbn [snd trace committed]. rewrite !completions_app, Hco, app_nil_r. reflexivity.
  - rewrite (complete_turn_provider_raised _ _ _ _ _ Hreply).
    cbn [trace]. rewrite completions_app. reflexivity.
Qed.

(** *** Commands that lack a key *)

Lemma subscript_command (d command : pydict) :
  dict_get "command" d = Some (JObject command) ->
  subscript (JObject d) "command" = Return (JObject command).
Proof. intros H. cbn [subscript]. rewrite H. reflexivity. Qed.

Lemma dispatch_incomplete (d command : pydict) (key : string) s :
  dict_get "command" d = Some (JObject command) ->
  first_missing command = Some key ->
  dispatch_command W d s = (Raise (KeyError key), s).
Proof.
  intros Hcmd Hmiss. unfold dispatch_command. rewrite Hcmd.
  unfold first_missing, dict_mem in Hmiss.
  unfold bind, lift. cbn [subscript].
  destruct (dict_get "domain" command); [|by inversion Hmiss].
  destruct (dict_get "service" command); [|by inversion Hmiss].
  destruct (dict_get "data" command); [|by inversion Hmiss].
  discriminate.
Qed.

Lemma unable_to_execute_incomplete (d command : pydict) (key : string) (err : exn) s :
  dict_get "command" d = Some (JObject command) ->
  first_missing command = Some key ->
  unable_to_execute W d err s = (Raise (KeyError key), s).
Proof.
  intros Hcmd Hmiss. unfold unable_to_execute.
  unfold first_missing, dict_mem in Hmiss.
  unfold bind, lift. rewrite (subscript_command _ _ Hcmd). cbn [subscript].
  destruct (dict_get "domain" command); [|by inversion Hmiss].
  destruct (dict_get "service" command); [|by inversion Hmiss].
  destruct (dict_get "data" command); [|by inversion Hmiss].
  discriminate.
Qed.

End Turn.

(** ** Building the prompt *)

(** C7: in a turn whose session id is not in the store (and whose template
    renders), the provider is called once, and the message list it gets is
    exactly three messages: the rendered prompt as a user message, the
    assistant message with the fixed acknowledgement, and the utterance
    followed by the instruction suffix as a user message. *)
Theorem new_session_sends_seed (K : constants) (entry : ConfigEntry) (W : collaborators)
    (user_input : ConversationInput) (h : gmap string (list message)) (prompt : string) :
  unknown_session user_input h ->
  async_render W (options_get entry (CONF_PROMPT K) (DEFAULT_PROMPT K)) = Return prompt ->
  map messages
    (completions (trace (snd (async_process K entry W user_input (start h)))))
  = [[{| role := "user"; content := prompt |};
      {| role := "assistant"; content := quoted "{'comment':'Got it!'}" |};
      {| role := "user";
         content := text user_input
                      +:+ " Answer in syntactially perfect json and only json," |}]].
Proof.
  intros Hunk Hrender.
  rewrite (async_process_new K entry W _ _ _ Hunk Hrender), complete_turn_sends.
  reflexivity.
Qed.

Lemma new_session_sends_seed_witness :
  map messages
    (completions (trace (snd (async_process sample_constants sample_entry
        (sample_world (Return "You are the voice assistant of Home.")
                      (Return (quoted "{'comment':'Done'}")))
        sample_input (start ∅)))))
  = [[{| role := "user"; content := "You are the voice assistant of Home." |};
      {| role := "assistant"; content := quoted "{'comment':'Got it!'}" |};
      {| role := "user";
         content := "turn on the light"
                      +:+ " Answer in syntactially perfect json and only json," |}]].
Proof.
  apply (new_session_sends_seed sample_constants sample_entry
           (sample_world (Return "You are the voice assistant of Home.")
                         (Return (quoted "{'comment':'Done'}")))
           sample_input ∅ "You are the voice assistant of Home.").
  - intros id Hid. simpl in Hid. discriminate Hid.
  - reflexivity.
Defined.

(** C8: in a turn whose session id is stored, the message list the provider
    gets is the stored history, unchanged and in order, followed by one user
    message: the utterance followed by the instruction suffix. *)
Theorem known_session_extends_history (K : constants) (entry : ConfigEntry)
    (W : collaborators) (user_input : ConversationInput)
    (h : gmap string (list message)) (id : string) (old : list message) :
  input_conversation_id user_input = Some id ->
  h !! id = Some old ->
  map messages
    (completions (trace (snd (async_process K entry W user_input (start h)))))
  = [old ++ [{| role := "user";
                content := text user_input
                             +:+ " Answer in syntactially perfect json and only json," |}]].
Proof.
  intros Hid Hold.
  rewrite (async_process_known K entry W _ _ _ _ Hid Hold), complete_turn_sends.
  reflexivity.
Qed.

Lemma known_session_extends_history_witness :
  map messages
    (completions (trace (snd (async_process sample_constants sample_entry
        (sample_world (Return "You are the voice assistant of Home.")
                      (Return (quoted "{'comment':'Done'}")))
        follow_up_input (start sample_history)))))
  = [[{| role := "user"; content := "You are the voice assistant of Home." |};
      got_it;
      {| role := "user";
         content := "turn on the light Answer in syntactially perfect json and only json," |};
      assistant (quoted "{'comment':'Done'}")]
     ++ [{| role := "user";
            content := "and the fan"
                         +:+ " Answer in syntactially perfect json and only json," |}]].
Proof.
  apply (known_session_extends_history sample_constants sample_entry
           (sample_world (Return "You are the voice assistant of Home.")
                         (Return (quoted "{'comment':'Done'}")))
           follow_up_input sample_history "01H4ZJ7M2K0000000000000000").
  - reflexivity.
  - vm_compute. reflexivity.
Defined.

(** C9: in a turn with no stored session whose template fails to render,
    the turn returns at once: the store is as before (no session, no
    message), nothing was sent, the speech is the template error message,
    and the session id returned is the one minted for this turn. *)
Theorem render_failure_creates_nothing (K : constants) (entry : ConfigEntry)
    (W : collaborators) (user_input : ConversationInput)
    (h : gmap string (list message)) (m : string) :
  unknown_session user_input h ->
  async_render W (options_get entry (CONF_PROMPT K) (DEFAULT_PROMPT K))
  = Raise (TemplateError m) ->
  exists r,
    async_process K entry W user_input (start h) = (Return r, start h)
    /\ spoken_text r = Some ("Sorry, I had a problem with my template: " +:+ m)
    /\ response_type (response r) = ERROR
    /\ conversation_id r = ulid W.
Proof.
  intros Hunk Hrender.
  exists (failed user_input ("Sorry, I had a problem with my template: " +:+ m) (ulid W)).
  split; [|done].
  unfold async_process, bind, get_history, start. cbn [history].
  rewrite (lookup_unknown _ _ Hunk).
  unfold attempt, async_generate_prompt, lift. rewrite Hrender. reflexivity.
Qed.

Lemma render_failure_creates_nothing_witness :
  exists r,
    async_process sample_constants sample_entry
      (sample_world (Raise (TemplateError "UndefinedError: 'ha_nam' is undefined"))
                    (Return (quoted "{'comment':'Done'}")))
      stale_input (start sample_history)
    = (Return r, start sample_history)
    /\ spoken_text r
       = Some ("Sorry, I had a problem with my template: "
                 +:+ "UndefinedError: 'ha_nam' is undefined")
    /\ response_type (response r) = ERROR
    /\ conversation_id r = "01H4ZJ8Q6T0000000000000000".
Proof.
  apply (render_failure_creates_nothing sample_constants sample_entry
           (sample_world (Raise (TemplateError "UndefinedError: 'ha_nam' is undefined"))
                         (Return (quoted "{'comment':'Done'}")))
           stale_input sample_history "UndefinedError: 'ha_nam' is undefined").
  - intros id Hid. injection Hid as <-. vm_compute. reflexivity.
  - reflexivity.
Defined.

(** ** The history commit point *)

(** C3: when the completion call fails with a provider error, the turn
    returns the provider-error speech with the session id, and the store is
    exactly as before: nothing is written, no session is created. *)
Theorem provider_failure_keeps_history (K : constants) (entry : ConfigEntry)
    (W : collaborators) (user_input : ConversationInput)
    (h : gmap string (list message)) (id : string) (msgs : list message) (m : string) :
  prompt_built K entry W user_input h id msgs ->
  acreate W (completion_request K entry id msgs) = Raise (OpenAIError m) ->
  exists r,
    fst (async_process K entry W user_input (start h)) = Return r
    /\ spoken_text r = Some ("Sorry, I had a problem talking to OpenAI: " +:+ m)
    /\ response_type (response r) = ERROR
    /\ conversation_id r = id
    /\ history (snd (async_process K entry W user_input (start h))) = h
    /\ stores (trace (snd (async_process K entry W user_input (start h)))) = [].
Proof.
  intros Hbuilt Hfail.
  rewrite (async_process_built K entry W _ _ _ _ Hbuilt).
  rewrite (complete_turn_provider_failed K entry W _ _ _ _ _ Hfail).
  eexists. repeat split.
Qed.

Lemma provider_failure_keeps_history_witness :
  exists r,
    fst (async_process sample_constants sample_entry
           (sample_world (Return "You are the voice assistant of Home.")
                         (Raise (OpenAIError "Rate limit reached")))
           follow_up_input (start sample_history)) = Return r
    /\ spoken_text r
       = Some ("Sorry, I had a problem talking to OpenAI: " +:+ "Rate limit reached")
    /\ response_type (response r) = ERROR
    /\ conversation_id r = "01H4ZJ7M2K0000000000000000"
    /\ history (snd (async_process sample_constants sample_entry
           (sample_world (Return "You are the voice assistant of Home.")
                         (Raise (OpenAIError "Rate limit reached")))
           follow_up_input (start sample_history))) = sample_history
    /\ stores (trace (snd (async_process sample_constants sample_entry
           (sample_world (Return "You are the voice assistant of Home.")
                         (Raise (OpenAIError "Rate limit reached")))
           follow_up_input (start sample_history)))) = [].
Proof.
  refine (provider_failure_keeps_history sample_constants sample_entry
            (sample_world (Return "You are the voice assistant of Home.")
                          (Raise (OpenAIError "Rate limit reached")))
            follow_up_input sample_history "01H4ZJ7M2K0000000000000000" _
            "Rate limit reached" _ _).
  - apply known_session; [reflexivity | vm_compute; reflexivity].
  - reflexivity.
Defined.

(** C2: when the completion call returns a reply, the history of the
    session is written exactly once in the turn, and it becomes the message
    list that preceded the turn (the stored history of a known session, the
    two seed messages of a new one) followed by the new user message and the
    reply as the provider gave it.  Nothing is assumed of the reply: it may
    parse or not, hold a command or not, and the command may fail. *)
Theorem reply_commits_history_once (K : constants) (entry : ConfigEntry)
    (W : collaborators) (user_input : ConversationInput)
    (h : gmap string (list message)) (id : string) (msgs : list message) (raw : string) :
  prompt_built K entry W user_input h id msgs ->
  acreate W (completion_request K entry id msgs) = Return raw ->
  exists previous,
    msgs = previous ++ [new_message user_input]
    /\ (forall old, input_conversation_id user_input = Some id ->
                    h !! id = Some old -> previous = old)
    /\ history (snd (async_process K entry W user_input (start h)))
       = <[id := previous ++ [new_message user_input;
                              {| role := "assistant"; content := raw |}]]> h
    /\ stores (trace (snd (async_process K entry W user_input (start h))))
       = [(id, previous ++ [new_message user_input;
                            {| role := "assistant"; content := raw |}])].
Proof.
  intros Hbuilt Hreply.
  rewrite (async_process_built K entry W _ _ _ _ Hbuilt).
  destruct (complete_turn_replied K entry W user_input id msgs (start h) raw Hreply)
    as (r & calls & -> & Hst & _).
  cbn [snd history trace committed start].
  rewrite app_nil_l, stores_app, Hst, app_nil_r. cbn [stores omap].
  assert (Hprev : exists previous,
             msgs = previous ++ [new_message user_input]
             /\ (forall old, input_conversation_id user_input = Some id ->
                             h !! id = Some old -> previous = old)).
  { destruct Hbuilt as [id old Hid Hold | prompt Hunk Hrender].
    - exists old. split; [reflexivity|]. intros old' _ Hold'. congruence.
    - exists [{| role := "user"; content := prompt |}; got_it].
      split; [reflexivity|]. intros old Hid Hold.
      rewrite (Hunk _ Hid) in Hold. discriminate Hold. }
  destruct Hprev as (previous & -> & Hold).
  exists previous. rewrite <- app_assoc. cbn [app]. unfold assistant. done.
Qed.

Lemma reply_commits_history_once_witness :
  exists previous,
    [{| role := "user"; content := "You are the voice assistant of Home." |};
     got_it; new_message stale_input]
    = previous ++ [new_message stale_input]
    /\ (forall old,
          input_conversation_id stale_input = Some "01H4ZJ8Q6T0000000000000000" ->
          sample_history !! "01H4ZJ8Q6T0000000000000000" = Some old -> previous = old)
    /\ history (snd (async_process sample_constants sample_entry
           (sample_world (Return "You are the voice assistant of Home.")
                         (Return "I cannot answer in json"))
           stale_input (start sample_history)))
       = <["01H4ZJ8Q6T0000000000000000" :=
             previous ++ [new_message stale_input;
                          {| role := "assistant"; content := "I cannot answer in json" |}]]>
           sample_history
    /\ stores (trace (snd (async_process sample_constants sample_entry
           (sample_world (Return "You are the voice assistant of Home.")
                         (Return "I cannot answer in json"))
           stale_input (start sample_history))))
       = [("01H4ZJ8Q6T0000000000000000",
           previous ++ [new_message stale_input;
                        {| role := "assistant"; content := "I cannot answer in json" |}])].
Proof.
  refine (reply_commits_history_once sample_constants sample_entry
            (sample_world (Return "You are the voice assistant of Home.")
                          (Return "I cannot answer in json"))
            stale_input sample_history "01H4ZJ8Q6T0000000000000000" _
            "I cannot answer in json" _ _).
  - apply (new_session sample_constants sample_entry
             (sample_world (Return "You are the voice assistant of Home.")
                           (Return "I cannot answer in json"))
             stale_input sample_history "You are the voice assistant of Home.").
    + intros id Hid. injection Hid as <-. vm_compute. reflexivity.
    + reflexivity.
  - reflexivity.
Defined.

(** ** Parsing the reply *)

Lemma append_assoc (a b c : string) : (a +:+ b) +:+ c = a +:+ b +:+ c.
Proof.
  induction a as [|x a IH]; [reflexivity|].
  rewrite !append_String, IH. reflexivity.
Qed.

(** What the parse handler prints is the reply after the repair. *)
Lemma parse_response_shown (raw : string) :
  fst (parse_response raw) = replace ",}" "}" raw.
Proof. reflexivity. Qed.

Lemma parse_response_object (raw : string) (members : pydict) (comment : json) :
  json_loads (replace ",}" "}" raw) = Return (JObject members) ->
  dict_get "comment" members = Some comment ->
  parse_response raw
  = (replace ",}" "}" raw, Return (comment, dict_del "comment" members)).
Proof.
  intros Hloads Hcomment. unfold parse_response.
  rewrite Hloads. cbn [subscript]. rewrite Hcomment. reflexivity.
Qed.

(** C4: the reply with a comma before its closing brace is not JSON as it
    stands; [parse_response] repairs it, and yields the comment hi and, as
    the rest of the object, the command mapping alone (no comment key). *)
Theorem trailing_comma_reply_parses :
  (exists e,
     json_loads
       (quoted "{'comment':'hi','command':{'domain':'light','service':'turn_on','data':{}},}")
     = Raise e)
  /\ parse_response
       (quoted "{'comment':'hi','command':{'domain':'light','service':'turn_on','data':{}},}")
     = (quoted "{'comment':'hi','command':{'domain':'light','service':'turn_on','data':{}}}",
        Return (JString "hi",
                [("command",
                  JObject [("domain", JString "light");
                           ("service", JString "turn_on");
                           ("data", JObject [])])])).
Proof.
  split.
  - eexists. vm_compute. reflexivity.
  - vm_compute. reflexivity.
Qed.

(** C10: the repair replaces every occurrence of a comma followed by a
    closing brace, also inside a string literal: the text below is valid
    JSON as it stands, its comment holds such an occurrence, and the
    comment [parse_response] returns is another string. *)
Theorem repair_alters_valid_json :
  json_loads (quoted "{'comment':'a,}b'}") = Return (JObject [("comment", JString "a,}b")])
  /\ parse_response (quoted "{'comment':'a,}b'}")
     = (quoted "{'comment':'a}b'}", Return (JString "a}b", []))
  /\ JString "a}b" <> JString "a,}b".
Proof.
  split; [vm_compute; reflexivity|].
  split; [vm_compute; reflexivity|].
  discriminate.
Qed.

(** C5: when the decoded reply is an object with a comment and a command
    that is not a mapping, the turn succeeds: the comment is the speech of
    a normal (not an error) response, and no service is called. *)
Theorem non_mapping_command_is_ignored (K : constants) (entry : ConfigEntry)
    (W : collaborators) (user_input : ConversationInput)
    (h : gmap string (list message)) (id : string) (msgs : list message)
    (raw : string) (members : pydict) (comment v : json) :
  prompt_built K entry W user_input h id msgs ->
  acreate W (completion_request K entry id msgs) = Return raw ->
  json_loads (replace ",}" "}" raw) = Return (JObject members) ->
  dict_get "comment" members = Some comment ->
  dict_get "command" members = Some v ->
  (forall command, v <> JObject command) ->
  exists r,
    fst (async_process K entry W user_input (start h)) = Return r
    /\ speech (response r) = Some comment
    /\ response_type (response r) = ACTION_DONE
    /\ error_code (response r) = None
    /\ conversation_id r = id
    /\ service_calls (trace (snd (async_process K entry W user_input (start h)))) = [].
Proof.
  intros Hbuilt Hreply Hloads Hcomment Hcommand Hshape.
  rewrite (async_process_built K entry W _ _ _ _ Hbuilt).
  rewrite (complete_turn_parsed K entry W _ _ _ _ _ _ _ _ Hreply
             (parse_response_object _ _ _ Hloads Hcomment)).
  unfold dispatch_command.
  rewrite dict_get_del_ne, Hcommand by discriminate.
  exists (spoken user_input comment id).
  destruct v; try (repeat split; reflexivity).
  exfalso. eapply Hshape. reflexivity.
Qed.

Lemma non_mapping_command_is_ignored_witness :
  exists r,
    fst (async_process sample_constants sample_entry
           (sample_world (Return "You are the voice assistant of Home.")
                         (Return (quoted "{'comment':'hi','command':'not a dict'}")))
           sample_input (start ∅)) = Return r
    /\ speech (response r) = Some (JString "hi")
    /\ response_type (response r) = ACTION_DONE
    /\ error_code (response r) = None
    /\ conversation_id r = "01H4ZJ8Q6T0000000000000000"
    /\ service_calls (trace (snd (async_process sample_constants sample_entry
           (sample_world (Return "You are the voice assistant of Home.")
                         (Return (quoted "{'comment':'hi','command':'not a dict'}")))
           sample_input (start ∅)))) = [].
Proof.
  refine (non_mapping_command_is_ignored sample_constants sample_entry
            (sample_world (Return "You are the voice assistant of Home.")
                          (Return (quoted "{'comment':'hi','command':'not a dict'}")))
            sample_input ∅ "01H4ZJ8Q6T0000000000000000" _
            (quoted "{'comment':'hi','command':'not a dict'}")
            [("comment", JString "hi"); ("command", JString "not a dict")]
            (JString "hi") (JString "not a dict") _ _ _ _ _ _).
  - apply (new_session sample_constants sample_entry
             (sample_world (Return "You are the voice assistant of Home.")
                           (Return (quoted "{'comment':'hi','command':'not a dict'}")))
             sample_input ∅ "You are the voice assistant of Home.").
    + intros id Hid. simpl in Hid. discriminate Hid.
    + reflexivity.
  - reflexivity.
  - vm_compute. reflexivity.
  - reflexivity.
  - reflexivity.
  - intros command Hv. discriminate Hv.
Defined.

(** C6, as the code has it: when the reply fails to parse, the turn returns
    as its speech the text made of the reply after the repair (every comma
    that stood before a closing brace removed), the error, and the
    traceback; that text holds the reply verbatim whenever the reply has no
    comma before a closing brace; and no service is called. *)
Theorem unparsed_reply_is_reported (K : constants) (entry : ConfigEntry)
    (W : collaborators) (user_input : ConversationInput)
    (h : gmap string (list message)) (id : string) (msgs : list message)
    (raw : string) (err : exn) :
  prompt_built K entry W user_input h id msgs ->
  acreate W (completion_request K entry id msgs) = Return raw ->
  snd (parse_response raw) = Raise err ->
  exists r t,
    fst (async_process K entry W user_input (start h)) = Return r
    /\ spoken_text r = Some t
    /\ conversation_id r = id
    /\ t = "Unable to parse: " +:+ replace ",}" "}" raw +:+ nl
             +:+ "Error: " +:+ str_exn err +:+ nl +:+ format_exc W err
    /\ contains (replace ",}" "}" raw) t = true
    /\ contains (str_exn err) t = true
    /\ (contains ",}" raw = false -> contains raw t = true)
    /\ service_calls (trace (snd (async_process K entry W user_input (start h)))) = [].
Proof.
  intros Hbuilt Hreply Hparse.
  assert (Hfull : parse_response raw = (replace ",}" "}" raw, Raise err)).
  { rewrite (surjective_pairing (parse_response raw)), Hparse, parse_response_shown.
    reflexivity. }
  rewrite (async_process_built K entry W _ _ _ _ Hbuilt).
  rewrite (complete_turn_unparsed K entry W _ _ _ _ _ _ _ Hreply Hfull).
  eexists. exists (unable_to_parse W (replace ",}" "}" raw) err).
  split; [reflexivity|]. split; [reflexivity|]. split; [reflexivity|].
  split; [reflexivity|]. unfold unable_to_parse.
  split; [apply contains_app|].
  split.
  - rewrite <- (append_assoc "Unable to parse: "), <- (append_assoc _ nl),
      <- (append_assoc _ "Error: ").
    apply contains_app.
  - split; [|reflexivity].
    intros Habsent. rewrite (replace_absent _ _ _ Habsent). apply contains_app.
Qed.

Lemma unparsed_reply_is_reported_witness :
  exists r t,
    fst (async_process sample_constants sample_entry
           (sample_world (Return "You are the voice assistant of Home.")
                         (Return "not json"))
           sample_input (start ∅)) = Return r
    /\ spoken_text r = Some t
    /\ conversation_id r = "01H4ZJ8Q6T0000000000000000"
    /\ t = "Unable to parse: " +:+ replace ",}" "}" "not json" +:+ nl
             +:+ "Error: " +:+ str_exn (JSONDecodeError "Expecting value" "not json" 0 1 1)
             +:+ nl
             +:+ sample_format_exc (JSONDecodeError "Expecting value" "not json" 0 1 1)
    /\ contains (replace ",}" "}" "not json") t = true
    /\ contains (str_exn (JSONDecodeError "Expecting value" "not json" 0 1 1)) t = true
    /\ (contains ",}" "not json" = false -> contains "not json" t = true)
    /\ service_calls (trace (snd (async_process sample_constants sample_entry
           (sample_world (Return "You are the voice assistant of Home.")
                         (Return "not json"))
           sample_input (start ∅)))) = [].
Proof.
  refine (unparsed_reply_is_reported sample_constants sample_entry
            (sample_world (Return "You are the voice assistant of Home.")
                          (Return "not json"))
            sample_input ∅ "01H4ZJ8Q6T0000000000000000" _ "not json"
            (JSONDecodeError "Expecting value" "not json" 0 1 1) _ _ _).
  - apply (new_session sample_constants sample_entry
             (sample_world (Return "You are the voice assistant of Home.")
                           (Return "not json"))
             sample_input ∅ "You are the voice assistant of Home.").
    + intros id Hid. simpl in Hid. discriminate Hid.
    + reflexivity.
  - reflexivity.
  - vm_compute. reflexivity.
Defined.

(** C6, as it is stated, fails: the reply below does not parse, and the
    speech of the turn does not hold it verbatim (its comma is gone). *)
Lemma unparsed_reply_not_verbatim :
  exists err r t,
    snd (parse_response "oops,}") = Raise err
    /\ fst (async_process sample_constants sample_entry
              (sample_world (Return "You are the voice assistant of Home.")
                            (Return "oops,}"))
              sample_input (start ∅)) = Return r
    /\ spoken_text r = Some t
    /\ contains "oops,}" t = false.
Proof.
  eexists. eexists. eexists.
  split; [vm_compute; reflexivity|].
  split; [vm_compute; reflexivity|].
  split; [vm_compute; reflexivity|].
  vm_compute. reflexivity.
Qed.

(** ** What leaves the turn *)

(** C1, where the code breaks it: when the command of the reply is a
    mapping that lacks one of the keys domain, service and data, the lookup
    of that key raises in the dispatch, the handler of the dispatch looks
    the same key up to build its text, and the [KeyError] of that second
    lookup leaves [async_process]: the turn returns no result. *)
Theorem incomplete_command_escapes (K : constants) (entry : ConfigEntry)
    (W : collaborators) (user_input : ConversationInput)
    (h : gmap string (list message)) (id : string) (msgs : list message)
    (raw : string) (members command : pydict) (comment : json) (key : string) :
  prompt_built K entry W user_input h id msgs ->
  acreate W (completion_request K entry id msgs) = Return raw ->
  json_loads (replace ",}" "}" raw) = Return (JObject members) ->
  dict_get "comment" members = Some comment ->
  dict_get "command" members = Some (JObject command) ->
  first_missing command = Some key ->
  fst (async_process K entry W user_input (start h)) = Raise (KeyError key).
Proof.
  intros Hbuilt Hreply Hloads Hcomment Hcommand Hmiss.
  rewrite (async_process_built K entry W _ _ _ _ Hbuilt).
  rewrite (complete_turn_parsed K entry W _ _ _ _ _ _ _ _ Hreply
             (parse_response_object _ _ _ Hloads Hcomment)).
  assert (Hcmd : dict_get "command" (dict_del "comment" members)
                 = Some (JObject command))
    by (rewrite dict_get_del_ne by discriminate; exact Hcommand).
  rewrite (dispatch_incomplete W _ _ _ _ Hcmd Hmiss).
  rewrite (unable_to_execute_incomplete W _ _ _ _ _ Hcmd Hmiss).
  reflexivity.
Qed.

Lemma incomplete_command_escapes_witness :
  fst (async_process sample_constants sample_entry
         (sample_world (Return "You are the voice assistant of Home.")
                       (Return (quoted "{'comment':'hi','command':{}}")))
         sample_input (start ∅))
  = Raise (KeyError "domain").
Proof.
  refine (incomplete_command_escapes sample_constants sample_entry
            (sample_world (Return "You are the voice assistant of Home.")
                          (Return (quoted "{'comment':'hi','command':{}}")))
            sample_input ∅ "01H4ZJ8Q6T0000000000000000" _
            (quoted "{'comment':'hi','command':{}}")
            [("comment", JString "hi"); ("command", JObject [])] []
            (JString "hi") "domain" _ _ _ _ _ _).
  - apply (new_session sample_constants sample_entry
             (sample_world (Return "You are the voice assistant of Home.")
                           (Return (quoted "{'comment':'hi','command':{}}")))
             sample_input ∅ "You are the voice assistant of Home.").
    + intros id Hid. simpl in Hid. discriminate Hid.
    + reflexivity.
  - reflexivity.
  - vm_compute. reflexivity.
  - reflexivity.
  - reflexivity.
  - reflexivity.
Defined.

(** The rest of C1 holds.  A dispatch raises only when there is a command
    mapping, and with the three keys present the handler builds its text. *)
Lemma dispatch_raises_on_command (W : collaborators) (d : pydict) (s s' : state)
    (err : exn) :
  dispatch_command W d s = (Raise err, s') ->
  exists command, dict_get "command" d = Some (JObject command).
Proof.
  unfold dispatch_command.
  destruct (dict_get "command" d) as [[| | | | | |command]|];
    try (unfold ret; discriminate).
  intros _. exists command. reflexivity.
Qed.

Lemma unable_to_execute_complete (W : collaborators) (d command : pydict)
    (err : exn) (s : state) :
  dict_get "command" d = Some (JObject command) ->
  first_missing command = None ->
  exists t, unable_to_execute W d err s = (Return t, s).
Proof.
  intros Hcmd Hmiss. unfold unable_to_execute, bind, lift, ret.
  rewrite (subscript_command _ _ Hcmd). cbn [subscript].
  unfold first_missing, dict_mem in Hmiss.
  destruct (dict_get "domain" command); [|discriminate Hmiss].
  destruct (dict_get "service" command); [|discriminate Hmiss].
  destruct (dict_get "data" command); [|discriminate Hmiss].
  eexists. reflexivity.
Qed.

Lemma async_process_template_error (K : constants) (entry : ConfigEntry)
    (W : collaborators) (user_input : ConversationInput)
    (h : gmap string (list message)) (m : string) :
  unknown_session user_input h ->
  async_render W (options_get entry (CONF_PROMPT K) (DEFAULT_PROMPT K))
  = Raise (TemplateError m) ->
  async_process K entry W user_input (start h)
  = (Return (failed user_input ("Sorry, I had a problem with my template: " +:+ m)
               (ulid W)),
     start h).
Proof.
  intros Hunk Hrender.
  unfold async_process, bind, get_history, start. cbn [history].
  rewrite (lookup_unknown _ _ Hunk).
  unfold attempt, async_generate_prompt, lift. rewrite Hrender. reflexivity.
Qed.

(** X14: when the template engine raises nothing but [TemplateError], the
    provider nothing but [OpenAIError], and a command mapping has its three
    keys, the turn returns a result whatever else fails. *)
Lemma async_process_returns (K : constants) (entry : ConfigEntry) (W : collaborators)
    (user_input : ConversationInput) (h : gmap string (list message)) :
  (forall e, async_render W (options_get entry (CONF_PROMPT K) (DEFAULT_PROMPT K))
             = Raise e -> exists m, e = TemplateError m) ->
  (forall req e, acreate W req = Raise e -> exists m, e = OpenAIError m) ->
  (forall req raw comment d command,
      acreate W req = Return raw ->
      snd (parse_response raw) = Return (comment, d) ->
      dict_get "command" d = Some (JObject command) ->
      first_missing command = None) ->
  exists r, fst (async_process K entry W user_input (start h)) = Return r.
Proof.
  intros Hrender Hprovider Hkeys.
  assert (Hturn : forall id msgs,
             exists r, fst (complete_turn K entry W user_input id msgs (start h))
                       = Return r).
  { intros id msgs.
    destruct (acreate W (completion_request K entry id msgs)) as [raw|e] eqn:Hreply.
    - destruct (parse_response raw) as [shown [[comment d]|err]] eqn:Hparse.
      + rewrite (complete_turn_parsed K entry W _ _ _ _ _ _ _ _ Hreply Hparse).
        destruct (dispatch_command W d _) as [[[]|err] s'] eqn:Hdispatch;
          [eexists; reflexivity|].
        destruct (dispatch_raises_on_command _ _ _ _ _ Hdispatch) as [command Hcmd].
        assert (Hsnd : snd (parse_response raw) = Return (comment, d))
          by (rewrite Hparse; reflexivity).
        destruct (unable_to_execute_complete W d command err s' Hcmd
                    (Hkeys _ _ _ _ _ Hreply Hsnd Hcmd)) as [t ->].
        eexists. reflexivity.
      + rewrite (complete_turn_unparsed K entry W _ _ _ _ _ _ _ Hreply Hparse).
        eexists. reflexivity.
    - destruct (Hprovider _ _ Hreply) as [m ->].
      rewrite (complete_turn_provider_failed K entry W _ _ _ _ _ Hreply).
      eexists. reflexivity. }
  destruct (input_conversation_id user_input) as [id|] eqn:Hid.
  - destruct (h !! id) as [old|] eqn:Hold.
    + rewrite (async_process_known K entry W _ _ _ _ Hid Hold). apply Hturn.
    + assert (Hunk : unknown_session user_input h)
        by (intros id' Hid'; congruence).
      destruct (async_render W (options_get entry (CONF_PROMPT K) (DEFAULT_PROMPT K)))
        as [prompt|e] eqn:Hr.
      * rewrite (async_process_new K entry W _ _ _ Hunk Hr). apply Hturn.
      * destruct (Hrender _ eq_refl) as [m ->].
        rewrite (async_process_template_error K entry W _ _ _ Hunk Hr).
        eexists. reflexivity.
  - assert (Hunk : unknown_session user_input h)
      by (intros id' Hid'; congruence).
    destruct (async_render W (options_get entry (CONF_PROMPT K) (DEFAULT_PROMPT K)))
      as [prompt|e] eqn:Hr.
    + rewrite (async_process_new K entry W _ _ _ Hunk Hr). apply Hturn.
    + destruct (Hrender _ eq_refl) as [m ->].
      rewrite (async_process_template_error K entry W _ _ _ Hunk Hr).
      eexists. reflexivity.
Qed.

(** ** Two turns *)

(** The text of the acknowledgement, character by character: the quotes
    are double quotes. *)
Lemma got_it_content :
  map nat_of_ascii (list_ascii_of_string (content got_it))
  = [123; 34; 99; 111; 109; 109; 101; 110; 116; 34; 58; 34; 71; 111; 116; 32;
     105; 116; 33; 34; 125].
Proof. reflexivity. Qed.

(** X13: the reply of a turn, parsed or not, is context of the next turn on the
    same session: the provider then gets the messages of the first turn, the
    reply as it was given, and the new user message. *)
Lemma reply_is_context_of_next_turn (K : constants) (entry : ConfigEntry)
    (W W' : collaborators) (user_input next_input : ConversationInput)
    (h : gmap string (list message)) (id : string) (msgs : list message) (raw : string) :
  prompt_built K entry W user_input h id msgs ->
  acreate W (completion_request K entry id msgs) = Return raw ->
  input_conversation_id next_input = Some id ->
  map messages
    (completions (trace (snd (async_process K entry W' next_input
       (start (history (snd (async_process K entry W user_input (start h)))))))))
  = [msgs ++ [assistant raw] ++ [new_message next_input]].
Proof.
  intros Hbuilt Hreply Hnext.
  rewrite (async_process_built K entry W _ _ _ _ Hbuilt).
  destruct (complete_turn_replied K entry W user_input id msgs (start h) raw Hreply)
    as (r & calls & -> & _ & _).
  cbn [snd history committed start].
  rewrite (async_process_known K entry W' next_input _ id
             (msgs ++ [assistant raw]) Hnext (lookup_insert_eq _ _ _)).
  rewrite complete_turn_sends. cbn [start trace completions omap app map messages
    completion_request]. rewrite <- app_assoc. reflexivity.
Qed.

(** ** More on one turn *)

(** The two routes of the session lookup cover every input. *)
Lemma async_process_route (K : constants) (entry : ConfigEntry) (W : collaborators)
    (user_input : ConversationInput) (h : gmap string (list message)) :
  (exists id msgs, prompt_built K entry W user_input h id msgs)
  \/ (unknown_session user_input h
      /\ exists e, async_render W (options_get entry (CONF_PROMPT K) (DEFAULT_PROMPT K))
                   = Raise e).
Proof.
  assert (Hnew : unknown_session user_input h ->
            (exists id msgs, prompt_built K entry W user_input h id msgs)
            \/ (unknown_session user_input h
                /\ exists e,
                     async_render W (options_get entry (CONF_PROMPT K) (DEFAULT_PROMPT K))
                     = Raise e)).
  { intros Hunk.
    destruct (async_render W (options_get entry (CONF_PROMPT K) (DEFAULT_PROMPT K)))
      as [prompt|e] eqn:Hr.
    - left. eexists _, _. apply (new_session K entry W _ _ prompt Hunk Hr).
    - right. eauto. }
  destruct (input_conversation_id user_input) as [id|] eqn:Hid.
  - destruct (h !! id) as [old|] eqn:Hold.
    + left. eexists _, _. apply (known_session K entry W _ _ id old Hid Hold).
    + apply Hnew. intros id' Hid'. congruence.
  - apply Hnew. intros id' Hid'. congruence.
Qed.

(** When the template engine raises, the turn ends with the state it
    started in, whatever the exception. *)
Lemma async_process_render_raised (K : constants) (entry : ConfigEntry)
    (W : collaborators) (user_input : ConversationInput)
    (h : gmap string (list message)) (e : exn) :
  unknown_session user_input h ->
  async_render W (options_get entry (CONF_PROMPT K) (DEFAULT_PROMPT K)) = Raise e ->
  async_process K entry W user_input (start h)
  = (match e with
     | TemplateError _ =>
         Return (failed user_input
                   ("Sorry, I had a problem with my template: " +:+ str_exn e) (ulid W))
     | _ => Raise e
     end, start h).
Proof.
  intros Hunk Hrender.
  unfold async_process, bind, get_history, start. cbn [history].
  rewrite (lookup_unknown _ _ Hunk).
  unfold attempt, async_generate_prompt, lift. rewrite Hrender.
  destruct e; reflexivity.
Qed.

(** The history after the rest of the turn: as before, or with the one
    session written. *)
Lemma complete_turn_history (K : constants) (entry : ConfigEntry) (W : collaborators)
    (user_input : ConversationInput) (id : string) (msgs : list message) (s : state) :
  history (snd (complete_turn K entry W user_input id msgs s)) = history s
  \/ exists raw,
       acreate W (completion_request K entry id msgs) = Return raw
       /\ history (snd (complete_turn K entry W user_input id msgs s))
          = <[id := msgs ++ [assistant raw]]> (history s).
Proof.
  destruct (acreate W (completion_request K entry id msgs)) as [raw|err] eqn:Hreply.
  - right. exists raw. split; [reflexivity|].
    destruct (complete_turn_replied K entry W user_input id msgs s raw Hreply)
      as (r & calls & -> & _ & _).
    reflexivity.
  - left. rewrite (complete_turn_provider_raised K entry W _ _ _ _ _ Hreply).
    reflexivity.
Qed.

(** What a complete command does. *)
Lemma dispatch_complete (W : collaborators) (d command : pydict) (dm sv dt : json)
    (s : state) :
  dict_get "command" d = Some (JObject command) ->
  dict_get "domain" command = Some dm ->
  dict_get "service" command = Some sv ->
  dict_get "data" command = Some dt ->
  dispatch_command W d s
  = (async_call W dm sv dt,
     {| history := history s; trace := trace s ++ [ServiceCall dm sv dt] |}).
Proof.
  intros Hcmd Hdm Hsv Hdt. unfold dispatch_command. rewrite Hcmd.
  unfold bind, lift, services_async_call, emit. cbn [subscript].
  rewrite Hdm, Hsv, Hdt. reflexivity.
Qed.

Lemma unable_to_execute_text (W : collaborators) (d command : pydict)
    (dm sv dt : json) (err : exn) (s : state) :
  dict_get "command" d = Some (JObject command) ->
  dict_get "domain" command = Some dm ->
  dict_get "service" command = Some sv ->
  dict_get "data" command = Some dt ->
  unable_to_execute W d err s
  = (Return ("Unable to execute: (" +:+ repr W dm +:+ ", " +:+ repr W sv +:+ ", "
               +:+ repr W dt +:+ ") " +:+ nl +:+ " Error: " +:+ str_exn err +:+ nl
               +:+ format_exc W err), s).
Proof.
  intros Hcmd Hdm Hsv Hdt. unfold unable_to_execute, bind, lift, ret.
  rewrite (subscript_command _ _ Hcmd). cbn [subscript].
  rewrite Hdm, Hsv, Hdt. reflexivity.
Qed.

(** The dispatch calls what the reply asks for and nothing else. *)
Lemma dispatch_command_calls (W : collaborators) (d : pydict) (s : state) :
  service_calls (trace (snd (dispatch_command W d s)))
  = service_calls (trace s) ++ requested_calls d.
Proof.
  unfold requested_calls.
  destruct (dict_get "command" d) as [[| | | | | |command]|] eqn:Hcmd;
    try (unfold dispatch_command; rewrite Hcmd; cbn [ret snd];
         rewrite app_nil_r; reflexivity).
  destruct (dict_get "domain" command) as [dm|] eqn:Hdm;
    [|rewrite (dispatch_incomplete W d command "domain" s Hcmd)
        by (unfold first_missing, dict_mem; rewrite Hdm; reflexivity);
      cbn [snd]; rewrite app_nil_r; reflexivity].
  destruct (dict_get "service" command) as [sv|] eqn:Hsv;
    [|rewrite (dispatch_incomplete W d command "service" s Hcmd)
        by (unfold first_missing, dict_mem; rewrite Hdm, Hsv; reflexivity);
      cbn [snd]; rewrite app_nil_r; reflexivity].
  destruct (dict_get "data" command) as [dt|] eqn:Hdt;
    [|rewrite (dispatch_incomplete W d command "data" s Hcmd)
        by (unfold first_missing, dict_mem; rewrite Hdm, Hsv, Hdt; reflexivity);
      cbn [snd]; rewrite app_nil_r; reflexivity].
  rewrite (dispatch_complete W d command dm sv dt s Hcmd Hdm Hsv Hdt).
  cbn [snd trace]. rewrite service_calls_app. reflexivity.
Qed.

(** X1: in a turn whose reply parses, the services called are exactly the
    one the reply asks for: one call with the domain, service and data of a
    command mapping that has the three, and no call otherwise (no command,
    a command that is no mapping, a mapping that lacks a key). *)
Theorem service_called_as_requested (K : constants) (entry : ConfigEntry)
    (W : collaborators) (user_input : ConversationInput)
    (h : gmap string (list message)) (id : string) (msgs : list message)
    (raw : string) (comment : json) (d : pydict) :
  prompt_built K entry W user_input h id msgs ->
  acreate W (completion_request K entry id msgs) = Return raw ->
  snd (parse_response raw) = Return (comment, d) ->
  service_calls (trace (snd (async_process K entry W user_input (start h))))
  = requested_calls d.
Proof.
  intros Hbuilt Hreply Hparse.
  rewrite (async_process_built K entry W _ _ _ _ Hbuilt).
  assert (Hfull : parse_response raw = (fst (parse_response raw), Return (comment, d)))
    by (rewrite <- Hparse; apply surjective_pairing).
  rewrite (complete_turn_parsed K entry W _ _ _ _ _ _ _ _ Hreply Hfull).
  pose proof (dispatch_command_calls W d (committed K entry id msgs raw (start h)))
    as Hcalls.
  destruct (dispatch_command W d (committed K entry id msgs raw (start h)))
    as [[[]|err] s'] eqn:Hdispatch; cbn [snd] in Hcalls.
  - cbn [snd]. rewrite Hcalls. reflexivity.
  - destruct (unable_to_execute_run W d err s') as [r' ->].
    destruct r' as [t|err']; cbn [snd]; rewrite Hcalls; reflexivity.
Qed.

Lemma service_called_as_requested_witness :
  service_calls (trace (snd (async_process sample_constants sample_entry
      (obliging_world (Return "You are the voice assistant of Home.")
                      (Return light_on_reply))
      sample_input (start ∅))))
  = requested_calls
      [("command", JObject [("domain", JString "light");
                            ("service", JString "turn_on");
                            ("data", JObject [])])].
Proof.
  refine (service_called_as_requested sample_constants sample_entry
            (obliging_world (Return "You are the voice assistant of Home.")
                            (Return light_on_reply))
            sample_input ∅ "01H4ZJ8Q6T0000000000000000" _ light_on_reply
            (JString "On it") _ _ _ _).
  - apply (new_session sample_constants sample_entry
             (obliging_world (Return "You are the voice assistant of Home.")
                             (Return light_on_reply))
             sample_input ∅ "You are the voice assistant of Home.").
    + intros id Hid. simpl in Hid. discriminate Hid.
    + reflexivity.
  - reflexivity.
  - vm_compute. reflexivity.
Defined.

(** X2: when the service call of a complete command raises, the turn
    still returns: its speech names the three values of the command as the
    interpreter prints them, then the error and the traceback; the response
    is a normal one, and the service was called once with those values. *)
Theorem dispatch_failure_names_command (K : constants) (entry : ConfigEntry)
    (W : collaborators) (user_input : ConversationInput)
    (h : gmap string (list message)) (id : string) (msgs : list message)
    (raw : string) (comment : json) (d command : pydict) (dm sv dt : json)
    (err : exn) :
  prompt_built K entry W user_input h id msgs ->
  acreate W (completion_request K entry id msgs) = Return raw ->
  snd (parse_response raw) = Return (comment, d) ->
  dict_get "command" d = Some (JObject command) ->
  dict_get "domain" command = Some dm ->
  dict_get "service" command = Some sv ->
  dict_get "data" command = Some dt ->
  async_call W dm sv dt = Raise err ->
  exists r,
    fst (async_process K entry W user_input (start h)) = Return r
    /\ spoken_text r
       = Some ("Unable to execute: (" +:+ repr W dm +:+ ", " +:+ repr W sv +:+ ", "
                 +:+ repr W dt +:+ ") " +:+ nl +:+ " Error: " +:+ str_exn err +:+ nl
                 +:+ format_exc W err)
    /\ response_type (response r) = ACTION_DONE
    /\ conversation_id r = id
    /\ service_calls (trace (snd (async_process K entry W user_input (start h))))
       = [(dm, sv, dt)].
Proof.
  intros Hbuilt Hreply Hparse Hcmd Hdm Hsv Hdt Hcall.
  rewrite (async_process_built K entry W _ _ _ _ Hbuilt).
  assert (Hfull : parse_response raw = (fst (parse_response raw), Return (comment, d)))
    by (rewrite <- Hparse; apply surjective_pairing).
  rewrite (complete_turn_parsed K entry W _ _ _ _ _ _ _ _ Hreply Hfull).
  rewrite (dispatch_complete W d command dm sv dt _ Hcmd Hdm Hsv Hdt), Hcall.
  rewrite (unable_to_execute_text W d command dm sv dt err _ Hcmd Hdm Hsv Hdt).
  eexists. repeat split.
Qed.

Lemma dispatch_failure_names_command_witness :
  exists r,
    fst (async_process sample_constants sample_entry
           (sample_world (Return "You are the voice assistant of Home.")
                         (Return light_on_reply))
           sample_input (start ∅)) = Return r
    /\ spoken_text r
       = Some ("Unable to execute: (" +:+ "'light'" +:+ ", " +:+ "'turn_on'" +:+ ", "
                 +:+ "{}" +:+ ") " +:+ nl +:+ " Error: "
                 +:+ "Unable to find service" +:+ nl
                 +:+ sample_format_exc
                       (OtherError "homeassistant.exceptions.ServiceNotFound"
                          "Unable to find service"))
    /\ response_type (response r) = ACTION_DONE
    /\ conversation_id r = "01H4ZJ8Q6T0000000000000000"
    /\ service_calls (trace (snd (async_process sample_constants sample_entry
           (sample_world (Return "You are the voice assistant of Home.")
                         (Return light_on_reply))
           sample_input (start ∅))))
       = [(JString "light", JString "turn_on", JObject [])].
Proof.
  refine (dispatch_failure_names_command sample_constants sample_entry
            (sample_world (Return "You are the voice assistant of Home.")
                          (Return light_on_reply))
            sample_input ∅ "01H4ZJ8Q6T0000000000000000" _ light_on_reply
            (JString "On it")
            [("command", JObject [("domain", JString "light");
                                  ("service", JString "turn_on");
                                  ("data", JObject [])])]
            [("domain", JString "light"); ("service", JString "turn_on");
             ("data", JObject [])]
            (JString "light") (JString "turn_on") (JObject [])
            (OtherError "homeassistant.exceptions.ServiceNotFound"
               "Unable to find service") _ _ _ _ _ _ _ _).
  - apply (new_session sample_constants sample_entry
             (sample_world (Return "You are the voice assistant of Home.")
                           (Return light_on_reply))
             sample_input ∅ "You are the voice assistant of Home.").
    + intros id Hid. simpl in Hid. discriminate Hid.
    + reflexivity.
  - reflexivity.
  - vm_compute. reflexivity.
  - reflexivity.
  - reflexivity.
  - reflexivity.
  - reflexivity.
  - reflexivity.
Defined.

(** X3: when the service call of a complete command returns, the turn
    returns the comment of the reply as the speech of a normal response,
    with the session id. *)
Theorem dispatched_command_speaks_comment (K : constants) (entry : ConfigEntry)
    (W : collaborators) (user_input : ConversationInput)
    (h : gmap string (list message)) (id : string) (msgs : list message)
    (raw : string) (comment : json) (d command : pydict) (dm sv dt : json) :
  prompt_built K entry W user_input h id msgs ->
  acreate W (completion_request K entry id msgs) = Return raw ->
  snd (parse_response raw) = Return (comment, d) ->
  dict_get "command" d = Some (JObject command) ->
  dict_get "domain" command = Some dm ->
  dict_get "service" command = Some sv ->
  dict_get "data" command = Some dt ->
  async_call W dm sv dt = Return tt ->
  exists r,
    fst (async_process K entry W user_input (start h)) = Return r
    /\ speech (response r) = Some comment
    /\ response_type (response r) = ACTION_DONE
    /\ error_code (response r) = None
    /\ conversation_id r = id
    /\ trace (snd (async_process K entry W user_input (start h)))
       = [Completion (completion_request K entry id msgs);
          HistoryStore id (msgs ++ [assistant raw]);
          ServiceCall dm sv dt].
Proof.
  intros Hbuilt Hreply Hparse Hcmd Hdm Hsv Hdt Hcall.
  rewrite (async_process_built K entry W _ _ _ _ Hbuilt).
  assert (Hfull : parse_response raw = (fst (parse_response raw), Return (comment, d)))
    by (rewrite <- Hparse; apply surjective_pairing).
  rewrite (complete_turn_parsed K entry W _ _ _ _ _ _ _ _ Hreply Hfull).
  rewrite (dispatch_complete W d command dm sv dt _ Hcmd Hdm Hsv Hdt), Hcall.
  eexists. repeat split.
Qed.

Lemma dispatched_command_speaks_comment_witness :
  exists r,
    fst (async_process sample_constants sample_entry
           (obliging_world (Return "You are the voice assistant of Home.")
                           (Return light_on_reply))
           sample_input (start ∅)) = Return r
    /\ speech (response r) = Some (JString "On it")
    /\ response_type (response r) = ACTION_DONE
    /\ error_code (response r) = None
    /\ conversation_id r = "01H4ZJ8Q6T0000000000000000"
    /\ trace (snd (async_process sample_constants sample_entry
           (obliging_world (Return "You are the voice assistant of Home.")
                           (Return light_on_reply))
           sample_input (start ∅)))
       = [Completion
            (completion_request sample_constants sample_entry
               "01H4ZJ8Q6T0000000000000000"
               [{| role := "user"; content := "You are the voice assistant of Home." |};
                got_it; new_message sample_input]);
          HistoryStore "01H4ZJ8Q6T0000000000000000"
            ([{| role := "user"; content := "You are the voice assistant of Home." |};
              got_it; new_message sample_input] ++ [assistant light_on_reply]);
          ServiceCall (JString "light") (JString "turn_on") (JObject [])].
Proof.
  refine (dispatched_command_speaks_comment sample_constants sample_entry
            (obliging_world (Return "You are the voice assistant of Home.")
                            (Return light_on_reply))
            sample_input ∅ "01H4ZJ8Q6T0000000000000000" _ light_on_reply
            (JString "On it")
            [("command", JObject [("domain", JString "light");
                                  ("service", JString "turn_on");
                                  ("data", JObject [])])]
            [("domain", JString "light"); ("service", JString "turn_on");
             ("data", JObject [])]
            (JString "light") (JString "turn_on") (JObject []) _ _ _ _ _ _ _ _).
  - apply (new_session sample_constants sample_entry
             (obliging_world (Return "You are the voice assistant of Home.")
                             (Return light_on_reply))
             sample_input ∅ "You are the voice assistant of Home.").
    + intros id Hid. simpl in Hid. discriminate Hid.
    + reflexivity.
  - reflexivity.
  - vm_compute. reflexivity.
  - reflexivity.
  - reflexivity.
  - reflexivity.
  - reflexivity.
  - reflexivity.
Defined.

(** A result of the rest of the turn carries the session id it was given. *)
Lemma complete_turn_result_id (K : constants) (entry : ConfigEntry) (W : collaborators)
    (user_input : ConversationInput) (id : string) (msgs : list message) (s : state)
    (r : ConversationResult) :
  fst (complete_turn K entry W user_input id msgs s) = Return r ->
  conversation_id r = id.
Proof.
  destruct (acreate W (completion_request K entry id msgs)) as [raw|err] eqn:Hreply.
  - destruct (parse_response raw) as [shown [[comment d]|e]] eqn:Hparse.
    + rewrite (complete_turn_parsed K entry W _ _ _ _ _ _ _ _ Hreply Hparse).
      destruct (dispatch_command W d _) as [[[]|e] s'];
        [intros [= <-]; reflexivity|].
      destruct (unable_to_execute_run W d e s') as [r' ->].
      destruct r' as [t|e']; [intros [= <-]; reflexivity|discriminate].
    + rewrite (complete_turn_unparsed K entry W _ _ _ _ _ _ _ Hreply Hparse).
      intros [= <-]. reflexivity.
  - unfold complete_turn, bind, attempt, ChatCompletion_acreate, emit, lift.
    cbn -[parse_response]. rewrite Hreply.
    destruct err; try discriminate. intros [= <-]. reflexivity.
Qed.

(** X4: a turn leaves the history of every other session as it was: the
    only session it may write is the one of its input when the store knows
    it, and the one it mints otherwise. *)
Theorem other_sessions_untouched (K : constants) (entry : ConfigEntry)
    (W : collaborators) (user_input : ConversationInput)
    (h : gmap string (list message)) (other : string) :
  other <> ulid W ->
  input_conversation_id user_input <> Some other ->
  history (snd (async_process K entry W user_input (start h))) !! other = h !! other.
Proof.
  intros Hulid Hinput.
  destruct (async_process_route K entry W user_input h)
    as [(id & msgs & Hbuilt) | (Hunk & e & Hrender)].
  - rewrite (async_process_built K entry W _ _ _ _ Hbuilt).
    assert (Hid : id <> other).
    { destruct Hbuilt as [id old Hid _ | prompt _ _]; congruence. }
    destruct (complete_turn_history K entry W user_input id msgs (start h))
      as [-> | (raw & _ & ->)]; [reflexivity|].
    cbn [start history]. apply lookup_insert_ne. exact Hid.
  - rewrite (async_process_render_raised K entry W _ _ _ Hunk Hrender). reflexivity.
Qed.

Lemma other_sessions_untouched_witness :
  history (snd (async_process sample_constants sample_entry
     (sample_world (Return "You are the voice assistant of Home.")
                   (Return "I cannot answer in json"))
     stale_input (start sample_history))) !! "01H4ZJ7M2K0000000000000000"
  = sample_history !! "01H4ZJ7M2K0000000000000000".
Proof.
  apply (other_sessions_untouched sample_constants sample_entry
           (sample_world (Return "You are the voice assistant of Home.")
                         (Return "I cannot answer in json"))
           stale_input sample_history "01H4ZJ7M2K0000000000000000").
  - intros H. discriminate H.
  - intros H. discriminate H.
Defined.

(** X5: the session id of a result is the id of the input when the store
    holds that session, and the minted id in every other case: an id the
    store does not know is not kept. *)
Theorem returned_session_id (K : constants) (entry : ConfigEntry)
    (W : collaborators) (user_input : ConversationInput)
    (h : gmap string (list message)) (r : ConversationResult) :
  fst (async_process K entry W user_input (start h)) = Return r ->
  (forall id, input_conversation_id user_input = Some id -> is_Some (h !! id) ->
              conversation_id r = id)
  /\ (unknown_session user_input h -> conversation_id r = ulid W).
Proof.
  intros Hr.
  destruct (async_process_route K entry W user_input h)
    as [(id & msgs & Hbuilt) | (Hunk & e & Hrender)].
  - rewrite (async_process_built K entry W _ _ _ _ Hbuilt) in Hr.
    apply complete_turn_result_id in Hr.
    destruct Hbuilt as [id old Hid Hold | prompt Hunk _].
    + split.
      * intros id' Hid' _. congruence.
      * intros Hunk. rewrite (Hunk _ Hid) in Hold. discriminate Hold.
    + split; [|intros _; exact Hr].
      intros id' Hid' [old Hold]. rewrite (Hunk _ Hid') in Hold. discriminate Hold.
  - rewrite (async_process_render_raised K entry W _ _ _ Hunk Hrender) in Hr.
    cbn [fst] in Hr. split.
    + intros id' Hid' [old Hold]. rewrite (Hunk _ Hid') in Hold. discriminate Hold.
    + intros _. destruct e; try discriminate Hr.
      injection Hr as <-. reflexivity.
Qed.

Lemma returned_session_id_witness :
  (forall id, input_conversation_id stale_input = Some id ->
              is_Some (sample_history !! id) ->
              conversation_id
                (spoken stale_input (JString "Done") "01H4ZJ8Q6T0000000000000000") = id)
  /\ (unknown_session stale_input sample_history ->
      conversation_id
        (spoken stale_input (JString "Done") "01H4ZJ8Q6T0000000000000000")
      = "01H4ZJ8Q6T0000000000000000").
Proof.
  apply (returned_session_id sample_constants sample_entry
           (sample_world (Return "You are the voice assistant of Home.")
                         (Return (quoted "{'comment':'Done'}")))
           stale_input sample_history
           (spoken stale_input (JString "Done") "01H4ZJ8Q6T0000000000000000")).
  vm_compute. reflexivity.
Defined.

(** X6: an exception of the provider that is no [OpenAIError] is not
    turned into speech: it leaves the turn as it is, after the request was
    sent and with the store unchanged. *)
Theorem foreign_provider_error_escapes (K : constants) (entry : ConfigEntry)
    (W : collaborators) (user_input : ConversationInput)
    (h : gmap string (list message)) (id : string) (msgs : list message) (err : exn) :
  prompt_built K entry W user_input h id msgs ->
  acreate W (completion_request K entry id msgs) = Raise err ->
  (forall m, err <> OpenAIError m) ->
  async_process K entry W user_input (start h)
  = (Raise err,
     {| history := h; trace := [Completion (completion_request K entry id msgs)] |}).
Proof.
  intros Hbuilt Hfail Hforeign.
  rewrite (async_process_built K entry W _ _ _ _ Hbuilt).
  unfold complete_turn, bind, attempt, ChatCompletion_acreate, emit, lift.
  cbn -[parse_response]. rewrite Hfail.
  destruct err; try reflexivity.
  exfalso. eapply Hforeign. reflexivity.
Qed.

Lemma foreign_provider_error_escapes_witness :
  async_process sample_constants sample_entry
    (sample_world (Return "You are the voice assistant of Home.")
                  (Raise (OtherError "asyncio.TimeoutError" "")))
    sample_input (start ∅)
  = (Raise (OtherError "asyncio.TimeoutError" ""),
     {| history := ∅;
        trace := [Completion
                    (completion_request sample_constants sample_entry
                       "01H4ZJ8Q6T0000000000000000"
                       [{| role := "user";
                           content := "You are the voice assistant of Home." |};
                        got_it; new_message sample_input])] |}).
Proof.
  refine (foreign_provider_error_escapes sample_constants sample_entry
            (sample_world (Return "You are the voice assistant of Home.")
                          (Raise (OtherError "asyncio.TimeoutError" "")))
            sample_input ∅ "01H4ZJ8Q6T0000000000000000" _
            (OtherError "asyncio.TimeoutError" "") _ _ _).
  - apply (new_session sample_constants sample_entry
             (sample_world (Return "You are the voice assistant of Home.")
                           (Raise (OtherError "asyncio.TimeoutError" "")))
             sample_input ∅ "You are the voice assistant of Home.").
    + intros id Hid. simpl in Hid. discriminate Hid.
    + reflexivity.
  - reflexivity.
  - intros m H. discriminate H.
Defined.

(** X7: an exception of the template engine that is no [TemplateError] is
    not turned into speech either: it leaves the turn, nothing was sent and
    the store is unchanged. *)
Theorem foreign_template_error_escapes (K : constants) (entry : ConfigEntry)
    (W : collaborators) (user_input : ConversationInput)
    (h : gmap string (list message)) (err : exn) :
  unknown_session user_input h ->
  async_render W (options_get entry (CONF_PROMPT K) (DEFAULT_PROMPT K)) = Raise err ->
  (forall m, err <> TemplateError m) ->
  async_process K entry W user_input (start h) = (Raise err, start h).
Proof.
  intros Hunk Hrender Hforeign.
  rewrite (async_process_render_raised K entry W _ _ _ Hunk Hrender).
  destruct err; try reflexivity.
  exfalso. eapply Hforeign. reflexivity.
Qed.

Lemma foreign_template_error_escapes_witness :
  async_process sample_constants sample_entry
    (sample_world (Raise (TypeError "unhashable type: 'dict'"))
                  (Return (quoted "{'comment':'Done'}")))
    sample_input (start sample_history)
  = (Raise (TypeError "unhashable type: 'dict'"), start sample_history).
Proof.
  apply (foreign_template_error_escapes sample_constants sample_entry
           (sample_world (Raise (TypeError "unhashable type: 'dict'"))
                         (Return (quoted "{'comment':'Done'}")))
           sample_input sample_history (TypeError "unhashable type: 'dict'")).
  - intros id Hid. simpl in Hid. discriminate Hid.
  - reflexivity.
  - intros m H. discriminate H.
Defined.

(** ** Invariants of the store *)

Lemma alternating_roles_snoc (n : nat) :
  alternating_roles n ++ ["user"; "assistant"] = alternating_roles (S n).
Proof.
  induction n as [|n IH]; [reflexivity|].
  cbn [alternating_roles app]. rewrite IH. reflexivity.
Qed.

Lemma well_formed_roles (msgs : list message) :
  well_formed msgs -> exists n, map role msgs = alternating_roles n.
Proof.
  induction 1 as [prompt utterance reply | msgs utterance reply _ [n IH]].
  - exists 2. reflexivity.
  - exists (S n). rewrite map_app, IH. apply alternating_roles_snoc.
Qed.

(** The store after a turn, whatever the turn did. *)
Lemma async_process_history (K : constants) (entry : ConfigEntry) (W : collaborators)
    (user_input : ConversationInput) (h : gmap string (list message)) :
  history (snd (async_process K entry W user_input (start h))) = h
  \/ exists id msgs raw,
       prompt_built K entry W user_input h id msgs
       /\ history (snd (async_process K entry W user_input (start h)))
          = <[id := msgs ++ [assistant raw]]> h.
Proof.
  destruct (async_process_route K entry W user_input h)
    as [(id & msgs & Hbuilt) | (Hunk & e & Hrender)].
  - rewrite (async_process_built K entry W _ _ _ _ Hbuilt).
    destruct (complete_turn_history K entry W user_input id msgs (start h))
      as [-> | (raw & _ & ->)]; [left; reflexivity|].
    right. exists id, msgs, raw. split; [exact Hbuilt|reflexivity].
  - left. rewrite (async_process_render_raised K entry W _ _ _ Hunk Hrender).
    reflexivity.
Qed.

Lemma turn_keeps_well_formed (K : constants) (entry : ConfigEntry) (W : collaborators)
    (user_input : ConversationInput) (h : gmap string (list message)) :
  map_Forall (fun _ msgs => well_formed msgs) h ->
  map_Forall (fun _ msgs => well_formed msgs)
    (history (snd (async_process K entry W user_input (start h)))).
Proof.
  intros Hwf.
  destruct (async_process_history K entry W user_input h)
    as [-> | (id & msgs & raw & Hbuilt & ->)]; [exact Hwf|].
  apply map_Forall_insert_2; [|exact Hwf].
  destruct Hbuilt as [id old Hid Hold | prompt Hunk Hrender].
  - rewrite <- app_assoc. cbn [app].
    apply (next_exchange old (text user_input) raw).
    exact (Hwf id old Hold).
  - apply (first_exchange prompt (text user_input) raw).
Qed.

(** X8: the agent keeps its histories well formed through any sequence of
    turns, whatever the collaborators do: each stored history is the two
    seed messages followed by pairs of a user message ending with the
    instruction suffix and the reply to it, so its roles alternate from user
    to assistant. *)
Theorem histories_stay_well_formed (K : constants) (entry : ConfigEntry)
    (turns : list (collaborators * ConversationInput))
    (h : gmap string (list message)) :
  map_Forall (fun _ msgs => well_formed msgs) h ->
  map_Forall (fun _ msgs => well_formed msgs
                            /\ exists n, map role msgs = alternating_roles n)
    (run_turns K entry turns h).
Proof.
  revert h. induction turns as [|[W user_input] turns IH]; intros h Hwf.
  - intros id msgs Hmsgs. split; [exact (Hwf id msgs Hmsgs)|].
    apply well_formed_roles. exact (Hwf id msgs Hmsgs).
  - cbn [run_turns]. apply IH. apply turn_keeps_well_formed. exact Hwf.
Qed.

Lemma histories_stay_well_formed_witness :
  map_Forall (fun _ msgs => well_formed msgs
                            /\ exists n, map role msgs = alternating_roles n)
    (run_turns sample_constants sample_entry
       [(sample_world (Return "You are the voice assistant of Home.")
                      (Return "I cannot answer in json"), sample_input);
        (obliging_world (Return "You are the voice assistant of Home.")
                        (Return light_on_reply), follow_up_input)]
       sample_history).
Proof.
  apply (histories_stay_well_formed sample_constants sample_entry
           [(sample_world (Return "You are the voice assistant of Home.")
                          (Return "I cannot answer in json"), sample_input);
            (obliging_world (Return "You are the voice assistant of Home.")
                            (Return light_on_reply), follow_up_input)]
           sample_history).
  apply map_Forall_singleton.
  apply (first_exchange "You are the voice assistant of Home." "turn on the light"
           (quoted "{'comment':'Done'}")).
Defined.

(** ** The request and the parse *)

(** X9: a turn that gets to the completion call sends one request,
    whatever happens afterwards.  The request carries the messages built for
    it, the session id as its user, the key of the entry, and for the model,
    the token limit, top_p and the temperature the value of the entry's
    options when it is set and the default otherwise. *)
Theorem request_carries_session_and_options (K : constants) (entry : ConfigEntry)
    (W : collaborators) (user_input : ConversationInput)
    (h : gmap string (list message)) (id : string) (msgs : list message) :
  prompt_built K entry W user_input h id msgs ->
  exists req,
    completions (trace (snd (async_process K entry W user_input (start h)))) = [req]
    /\ messages req = msgs
    /\ user req = id
    /\ api_key req = entry_api_key entry
    /\ model req
       = default (DEFAULT_CHAT_MODEL K) (entry_options entry !! CONF_CHAT_MODEL K)
    /\ max_tokens req
       = default (DEFAULT_MAX_TOKENS K) (entry_options entry !! CONF_MAX_TOKENS K)
    /\ top_p req = default (DEFAULT_TOP_P K) (entry_options entry !! CONF_TOP_P K)
    /\ temperature req
       = default (DEFAULT_TEMPERATURE K) (entry_options entry !! CONF_TEMPERATURE K).
Proof.
  intros Hbuilt.
  rewrite (async_process_built K entry W _ _ _ _ Hbuilt), complete_turn_sends.
  eexists. repeat split.
Qed.

Lemma request_carries_session_and_options_witness :
  exists req,
    completions (trace (snd (async_process sample_constants tuned_entry
       (sample_world (Return "Answer as Home would.") (Return "I cannot answer in json"))
       follow_up_input (start sample_history)))) = [req]
    /\ messages req
       = [{| role := "user"; content := "You are the voice assistant of Home." |};
          got_it;
          {| role := "user";
             content := "turn on the light Answer in syntactially perfect json and only json," |};
          assistant (quoted "{'comment':'Done'}")] ++ [new_message follow_up_input]
    /\ user req = "01H4ZJ7M2K0000000000000000"
    /\ api_key req = entry_api_key tuned_entry
    /\ model req
       = default (DEFAULT_CHAT_MODEL sample_constants)
           (entry_options tuned_entry !! CONF_CHAT_MODEL sample_constants)
    /\ max_tokens req
       = default (DEFAULT_MAX_TOKENS sample_constants)
           (entry_options tuned_entry !! CONF_MAX_TOKENS sample_constants)
    /\ top_p req
       = default (DEFAULT_TOP_P sample_constants)
           (entry_options tuned_entry !! CONF_TOP_P sample_constants)
    /\ temperature req
       = default (DEFAULT_TEMPERATURE sample_constants)
           (entry_options tuned_entry !! CONF_TEMPERATURE sample_constants).
Proof.
  refine (request_carries_session_and_options sample_constants tuned_entry
            (sample_world (Return "Answer as Home would.")
                          (Return "I cannot answer in json"))
            follow_up_input sample_history "01H4ZJ7M2K0000000000000000" _ _).
  apply known_session; [reflexivity | vm_compute; reflexivity].
Defined.



(** X11: on a reply without a comma before a closing brace the repair does
    nothing: the handler prints the reply itself, a decoding error of the
    reply is the error of the parse, and when the reply is an object with a
    comment, the parse gives that comment and the other members. *)
Theorem reply_without_repair_is_decoded_as_is (raw : string) :
  contains ",}" raw = false ->
  fst (parse_response raw) = raw
  /\ (forall e, json_loads raw = Raise e -> snd (parse_response raw) = Raise e)
  /\ (forall members comment,
        json_loads raw = Return (JObject members) ->
        dict_get "comment" members = Some comment ->
        snd (parse_response raw) = Return (comment, dict_del "comment" members)).
Proof.
  intros Habsent. unfold parse_response. cbn [fst snd].
  rewrite (replace_absent _ _ _ Habsent).
  split; [reflexivity|]. split.
  - intros e ->. reflexivity.
  - intros members comment -> Hcomment. cbn [subscript]. rewrite Hcomment. reflexivity.
Qed.

Lemma reply_without_repair_is_decoded_as_is_witness :
  fst (parse_response (quoted "{'comment':'a, }b'}")) = quoted "{'comment':'a, }b'}"
  /\ (forall e, json_loads (quoted "{'comment':'a, }b'}") = Raise e ->
                snd (parse_response (quoted "{'comment':'a, }b'}")) = Raise e)
  /\ (forall members comment,
        json_loads (quoted "{'comment':'a, }b'}") = Return (JObject members) ->
        dict_get "comment" members = Some comment ->
        snd (parse_response (quoted "{'comment':'a, }b'}"))
        = Return (comment, dict_del "comment" members)).
Proof.
  apply (reply_without_repair_is_decoded_as_is (quoted "{'comment':'a, }b'}")).
  vm_compute. reflexivity.
Defined.

(** ** Decoded objects have each key once *)

Lemma dict_get_None_keys (k : string) (d : pydict) :
  dict_get k d = None <-> k ∉ map fst d.
Proof.
  induction d as [|[x v] d IH]; cbn [dict_get map fst].
  - split; [intros _ H; inversion H|reflexivity].
  - rewrite not_elem_of_cons. destruct (String.eqb_spec x k) as [->|Hx].
    + split; [discriminate|intros [H _]; congruence].
    + rewrite IH. split; [intros H; split; [congruence|exact H]|intros [_ H]; exact H].
Qed.

Lemma dict_set_keys (k : string) (v : json) (d : pydict) :
  map fst (dict_set k v d)
  = if dict_mem k d then map fst d else map fst d ++ [k].
Proof.
  unfold dict_mem. induction d as [|[x w] d IH]; [reflexivity|].
  cbn [dict_set dict_get]. destruct (String.eqb_spec x k) as [->|Hx]; [reflexivity|].
  cbn [map fst]. rewrite IH. destruct (dict_get k d); reflexivity.
Qed.

Lemma dict_set_unique (k : string) (v : json) (d : pydict) :
  NoDup (map fst d) -> NoDup (map fst (dict_set k v d)).
Proof.
  intros Hd. rewrite dict_set_keys. unfold dict_mem.
  destruct (dict_get k d) eqn:Hk; [exact Hd|].
  apply NoDup_app. split; [exact Hd|]. split; [|apply NoDup_singleton].
  intros x Hx Hx'. apply list_elem_of_singleton in Hx'. subst x.
  apply dict_get_None_keys in Hk. contradiction.
Qed.

Lemma dict_get_del_same (k : string) (d : pydict) :
  NoDup (map fst d) -> dict_get k (dict_del k d) = None.
Proof.
  induction d as [|[x v] d IH]; intros Hd; [reflexivity|].
  cbn [map fst] in Hd. apply NoDup_cons in Hd as [Hx Hd].
  cbn [dict_del]. destruct (String.eqb_spec x k) as [->|Hne].
  - apply dict_get_None_keys. exact Hx.
  - cbn [dict_get]. destruct (String.eqb_spec x k); [contradiction|]. apply IH, Hd.
Qed.

Lemma scan_constant_not_object (s rest : string) (members : pydict) :
  scan_constant s <> Some (JObject members, rest).
Proof.
  unfold scan_constant.
  repeat match goal with
         | |- context [strip_prefix ?lit s] => destruct (strip_prefix lit s)
         end; discriminate.
Qed.

Lemma match_number_not_object (s rest : string) (members : pydict) :
  match_number s <> Some (JObject members, rest).
Proof.
  unfold match_number.
  destruct (match s with
            | String c r => if Ascii.eqb c "-" then (true, r) else (false, s)
            | EmptyString => (false, s)
            end) as [neg s1].
  destruct (int_part s1) as [[ip s2]|]; [|discriminate].
  destruct (frac_part s2) as [fp s3]. destruct (exp_part s3) as [ep s4].
  destruct fp, ep; discriminate.
Qed.

(** The members of an object the scanner returns have distinct keys. *)
Lemma scanned_objects_unique (depth : nat) :
  (forall s v rest, scan_once depth s = Ok v rest ->
     forall members, v = JObject members -> NoDup (map fst members))
  /\ (forall s acc v rest, NoDup (map fst acc) -> parse_members depth s acc = Ok v rest ->
     forall members, v = JObject members -> NoDup (map fst members))
  /\ (forall s acc v rest, parse_elements depth s acc = Ok v rest ->
     forall members, v <> JObject members).
Proof.
  induction depth as [|depth (IHv & IHm & IHe)].
  - repeat split; intros; discriminate.
  - split; [|split].
    + intros s v rest H members ->. cbn [scan_once] in H.
      destruct s as [|c r]; [discriminate H|].
      destruct (Ascii.eqb c dquote).
      { destruct (scanstring _ r); discriminate H. }
      destruct (Ascii.eqb c "{").
      { destruct (skip_ws r) as [|c' r'].
        - eapply (IHm _ [] _ _ (NoDup_nil_2) H). reflexivity.
        - destruct (Ascii.eqb c' "}").
          + injection H as <- _. apply NoDup_nil_2.
          + eapply (IHm _ [] _ _ (NoDup_nil_2) H). reflexivity. }
      destruct (Ascii.eqb c "[").
      { destruct (skip_ws r) as [|c' r'].
        - exfalso. eapply IHe; [exact H|reflexivity].
        - destruct (Ascii.eqb c' "]"); [discriminate H|].
          exfalso. eapply IHe; [exact H|reflexivity]. }
      destruct (scan_constant (String c r)) as [[v rest']|] eqn:Hc.
      { injection H as -> ->. exfalso. eapply scan_constant_not_object, Hc. }
      destruct (match_number (String c r)) as [[v rest']|] eqn:Hn; [|discriminate H].
      injection H as -> ->. exfalso. eapply match_number_not_object, Hn.
    + intros s acc v rest Hacc H members ->. cbn [parse_members] in H.
      destruct s as [|c r]; [discriminate H|].
      destruct (Ascii.eqb c dquote); [|discriminate H].
      destruct (scanstring _ r) as [key r1|]; [|discriminate H].
      destruct (skip_ws r1) as [|c2 r3]; [discriminate H|].
      destruct (Ascii.eqb c2 ":"); [|discriminate H].
      destruct (scan_once depth (skip_ws r3)) as [v r5|]; [|discriminate H].
      destruct (skip_ws r5) as [|c6 r7]; [discriminate H|].
      destruct (Ascii.eqb c6 "}").
      { injection H as <- _. apply dict_set_unique, Hacc. }
      destruct (Ascii.eqb c6 ","); [|discriminate H].
      eapply (IHm _ _ _ _ (dict_set_unique key v acc Hacc) H). reflexivity.
    + intros s acc v rest H members ->. cbn [parse_elements] in H.
      destruct (scan_once depth s) as [v r1|]; [|discriminate H].
      destruct (skip_ws r1) as [|c2 r3]; [discriminate H|].
      destruct (Ascii.eqb c2 "]"); [discriminate H|].
      destruct (Ascii.eqb c2 ","); [|discriminate H].
      eapply IHe; [exact H|reflexivity].
Qed.

Lemma json_loads_unique (doc : string) (members : pydict) :
  json_loads doc = Return (JObject members) -> NoDup (map fst members).
Proof.
  unfold json_loads. destruct (startswith bom doc); [discriminate|].
  destruct (scan_once (2 * String.length doc + 2) (skip_ws doc))
    as [v rest|[rem|msg rem|]] eqn:Hscan; try discriminate.
  destruct (skip_ws rest); [|discriminate].
  intros [= ->].
  destruct (scanned_objects_unique (2 * String.length doc + 2)) as (Hv & _ & _).
  eapply Hv; [exact Hscan|reflexivity].
Qed.

(** X12: a reply parses only when its repaired text decodes to an object
    with a comment; the rest the parse hands on has no comment key any
    more (the comment cannot reach a command), and holds every other key of
    the object with its value. *)
Theorem comment_key_is_removed (raw : string) (comment : json) (d : pydict) :
  snd (parse_response raw) = Return (comment, d) ->
  dict_get "comment" d = None
  /\ exists members,
       json_loads (replace ",}" "}" raw) = Return (JObject members)
       /\ dict_get "comment" members = Some comment
       /\ forall key, key <> "comment" -> dict_get key d = dict_get key members.
Proof.
  unfold parse_response. cbn [snd].
  destruct (json_loads (replace ",}" "}" raw)) as [v|e] eqn:Hloads; [|discriminate].
  destruct v as [| | | | | |members]; cbn [subscript]; try discriminate.
  destruct (dict_get "comment" members) as [c|] eqn:Hcomment; [|discriminate].
  intros [= <- <-]. split.
  - apply dict_get_del_same. apply (json_loads_unique _ _ Hloads).
  - exists members. split; [reflexivity|]. split; [exact Hcomment|].
    intros key Hkey. apply dict_get_del_ne. exact Hkey.
Qed.

Lemma comment_key_is_removed_witness :
  dict_get "comment" [("command", JString "none")] = None
  /\ exists members,
       json_loads (replace ",}" "}"
                     (quoted "{'comment':'one','command':'none','comment':'two'}"))
       = Return (JObject members)
       /\ dict_get "comment" members = Some (JString "two")
       /\ forall key, key <> "comment" ->
            dict_get key [("command", JString "none")] = dict_get key members.
Proof.
  apply (comment_key_is_removed
           (quoted "{'comment':'one','command':'none','comment':'two'}")
           (JString "two") [("command", JString "none")]).
  vm_compute. reflexivity.
Defined.

(** ** Witnesses of the two-turn and the returning-turn lemmas *)

Lemma reply_is_context_of_next_turn_witness :
  map messages
    (completions (trace (snd (async_process sample_constants sample_entry
       (obliging_world (Return "You are the voice assistant of Home.")
                       (Return light_on_reply))
       next_input
       (start (history (snd (async_process sample_constants sample_entry
          (sample_world (Return "You are the voice assistant of Home.")
                        (Return "I cannot answer in json"))
          sample_input (start ∅)))))))))
  = [[{| role := "user"; content := "You are the voice assistant of Home." |};
      got_it; new_message sample_input]
     ++ [assistant "I cannot answer in json"] ++ [new_message next_input]].
Proof.
  refine (reply_is_context_of_next_turn sample_constants sample_entry
            (sample_world (Return "You are the voice assistant of Home.")
                          (Return "I cannot answer in json"))
            (obliging_world (Return "You are the voice assistant of Home.")
                            (Return light_on_reply))
            sample_input next_input ∅ "01H4ZJ8Q6T0000000000000000" _
            "I cannot answer in json" _ _ _).
  - apply (new_session sample_constants sample_entry
             (sample_world (Return "You are the voice assistant of Home.")
                           (Return "I cannot answer in json"))
             sample_input ∅ "You are the voice assistant of Home.").
    + intros id Hid. simpl in Hid. discriminate Hid.
    + reflexivity.
  - reflexivity.
  - reflexivity.
Defined.

Lemma async_process_returns_witness :
  exists r,
    fst (async_process sample_constants sample_entry
           (sample_world (Return "You are the voice assistant of Home.")
                         (Return light_on_reply))
           follow_up_input (start sample_history)) = Return r.
Proof.
  apply (async_process_returns sample_constants sample_entry
           (sample_world (Return "You are the voice assistant of Home.")
                         (Return light_on_reply))
           follow_up_input sample_history).
  - intros e H. discriminate H.
  - intros req e H. discriminate H.
  - intros req raw comment d command Hreply Hparse Hcmd.
    injection Hreply as <-. vm_compute in Hparse. injection Hparse as <- <-.
    vm_compute in Hcmd. injection Hcmd as <-. reflexivity.
Defined.

(** ** Setting up, unloading, rendering an image *)



(** The state after a setup whose listing returned. *)
Lemma async_setup_entry_listed (DOMAIN : string)
    (Engine_list : json -> Z -> engine_listing) (entry_id : string)
    (entry : ConfigEntry) (hass : hass_state) :
  Engine_list (entry_api_key entry) 10%Z = Listed ->
  async_setup_entry DOMAIN Engine_list entry_id entry hass
  = (Return true,
     {| hass_data :=
          <[DOMAIN := <[entry_id := entry_api_key entry]>
                        (default ∅ (hass_data hass !! DOMAIN))]> (hass_data hass);
        hass_agents := <[entry_id := new_agent entry]> (hass_agents hass) |}).
Proof. intros H. unfold async_setup_entry. rewrite H. reflexivity. Qed.

(** The unload of an entry right after its setup. *)
Lemma unload_after_setup (DOMAIN : string)
    (Engine_list : json -> Z -> engine_listing) (entry_id : string)
    (entry : ConfigEntry) (hass : hass_state) :
  Engine_list (entry_api_key entry) 10%Z = Listed ->
  async_unload_entry DOMAIN entry_id
    (snd (async_setup_entry DOMAIN Engine_list entry_id entry hass))
  = (Return true,
     {| hass_data :=
          <[DOMAIN := delete entry_id (default ∅ (hass_data hass !! DOMAIN))]>
            (hass_data hass);
        hass_agents := delete entry_id (hass_agents hass) |}).
Proof.
  intros Hlisted. rewrite (async_setup_entry_listed _ _ _ _ _ Hlisted). cbn [snd].
  unfold async_unload_entry. cbn [hass_data hass_agents].
  rewrite lookup_insert_eq, lookup_insert_eq.
  rewrite insert_insert_eq, delete_insert_eq, delete_insert_eq. reflexivity.
Qed.

(** X16: a setup followed by the unload of the same entry both return
    true, and leave every other key and every other agent as before, with
    no key and no agent for the entry; when the host held the dictionary of
    the domain and nothing for the entry, it is left exactly as it was. *)
Theorem setup_then_unload (DOMAIN : string)
    (Engine_list : json -> Z -> engine_listing) (entry_id : string)
    (entry : ConfigEntry) (hass : hass_state) :
  Engine_list (entry_api_key entry) 10%Z = Listed ->
  fst (async_setup_entry DOMAIN Engine_list entry_id entry hass) = Return true
  /\ async_unload_entry DOMAIN entry_id
       (snd (async_setup_entry DOMAIN Engine_list entry_id entry hass))
     = (Return true,
        {| hass_data :=
             <[DOMAIN := delete entry_id (default ∅ (hass_data hass !! DOMAIN))]>
               (hass_data hass);
           hass_agents := delete entry_id (hass_agents hass) |})
  /\ (forall keys, hass_data hass !! DOMAIN = Some keys ->
        keys !! entry_id = None -> hass_agents hass !! entry_id = None ->
        snd (async_unload_entry DOMAIN entry_id
               (snd (async_setup_entry DOMAIN Engine_list entry_id entry hass)))
        = hass).
Proof.
  intros Hlisted. rewrite (async_setup_entry_listed _ _ _ _ _ Hlisted).
  cbn [fst snd]. split; [reflexivity|].
  assert (Hunload :
    async_unload_entry DOMAIN entry_id
      {| hass_data :=
           <[DOMAIN := <[entry_id := entry_api_key entry]>
                         (default ∅ (hass_data hass !! DOMAIN))]> (hass_data hass);
         hass_agents := <[entry_id := new_agent entry]> (hass_agents hass) |}
    = (Return true,
       {| hass_data :=
            <[DOMAIN := delete entry_id (default ∅ (hass_data hass !! DOMAIN))]>
              (hass_data hass);
          hass_agents := delete entry_id (hass_agents hass) |})).
  { unfold async_unload_entry. cbn [hass_data hass_agents].
    rewrite lookup_insert_eq, lookup_insert_eq.
    rewrite insert_insert_eq, delete_insert_eq, delete_insert_eq. reflexivity. }
  split; [exact Hunload|].
  intros keys Hkeys Hkey Hagent. rewrite Hunload. cbn [snd].
  rewrite Hkeys. cbn [default].
  rewrite (delete_id _ _ Hkey), (delete_id _ _ Hagent), (insert_id _ _ _ Hkeys).
  destruct hass. reflexivity.
Qed.

Lemma setup_then_unload_witness :
  fst (async_setup_entry "openai_conversation" (fun _ _ => Listed) "entry-b"
         sample_entry sample_hass) = Return true
  /\ async_unload_entry "openai_conversation" "entry-b"
       (snd (async_setup_entry "openai_conversation" (fun _ _ => Listed) "entry-b"
               sample_entry sample_hass))
     = (Return true,
        {| hass_data :=
             <["openai_conversation" :=
                 delete "entry-b"
                   (default ∅ (hass_data sample_hass !! "openai_conversation"))]>
               (hass_data sample_hass);
           hass_agents := delete "entry-b" (hass_agents sample_hass) |})
  /\ (forall keys, hass_data sample_hass !! "openai_conversation" = Some keys ->
        keys !! "entry-b" = None -> hass_agents sample_hass !! "entry-b" = None ->
        snd (async_unload_entry "openai_conversation" "entry-b"
               (snd (async_setup_entry "openai_conversation" (fun _ _ => Listed)
                       "entry-b" sample_entry sample_hass)))
        = sample_hass).
Proof.
  apply (setup_then_unload "openai_conversation" (fun _ _ => Listed) "entry-b"
           sample_entry sample_hass).
  reflexivity.
Defined.

(** X17: an entry cannot be unloaded twice: after a setup and an unload,
    the pop of the second unload raises the [KeyError] of the entry id, and
    the host is left as the first unload left it. *)
Theorem second_unload_raises (DOMAIN : string)
    (Engine_list : json -> Z -> engine_listing) (entry_id : string)
    (entry : ConfigEntry) (hass : hass_state) :
  Engine_list (entry_api_key entry) 10%Z = Listed ->
  async_unload_entry DOMAIN entry_id
    (snd (async_unload_entry DOMAIN entry_id
            (snd (async_setup_entry DOMAIN Engine_list entry_id entry hass))))
  = (Raise (KeyError entry_id),
     snd (async_unload_entry DOMAIN entry_id
            (snd (async_setup_entry DOMAIN Engine_list entry_id entry hass)))).
Proof.
  intros Hlisted. rewrite (unload_after_setup _ _ _ _ _ Hlisted). cbn [snd].
  unfold async_unload_entry. cbn [hass_data hass_agents].
  rewrite lookup_insert_eq, lookup_delete_eq. reflexivity.
Qed.

Lemma second_unload_raises_witness :
  async_unload_entry "openai_conversation" "entry-b"
    (snd (async_unload_entry "openai_conversation" "entry-b"
            (snd (async_setup_entry "openai_conversation" (fun _ _ => Listed)
                    "entry-b" sample_entry sample_hass))))
  = (Raise (KeyError "entry-b"),
     snd (async_unload_entry "openai_conversation" "entry-b"
            (snd (async_setup_entry "openai_conversation" (fun _ _ => Listed)
                    "entry-b" sample_entry sample_hass)))).
Proof.
  apply (second_unload_raises "openai_conversation" (fun _ _ => Listed) "entry-b"
           sample_entry sample_hass).
  reflexivity.
Defined.

(** A turn on a session the store does not hold returns the minted id. *)
Lemma unknown_session_result_id (K : constants) (entry : ConfigEntry)
    (W : collaborators) (user_input : ConversationInput)
    (h : gmap string (list message)) (r : ConversationResult) :
  unknown_session user_input h ->
  fst (async_process K entry W user_input (start h)) = Return r ->
  conversation_id r = ulid W.
Proof.
  intros Hunk Hr.
  destruct (async_render W (options_get entry (CONF_PROMPT K) (DEFAULT_PROMPT K)))
    as [prompt|e] eqn:Hrender.
  - rewrite (async_process_new K entry W _ _ _ Hunk Hrender) in Hr.
    apply complete_turn_result_id in Hr. exact Hr.
  - rewrite (async_process_render_raised K entry W _ _ _ Hunk Hrender) in Hr.
    cbn [fst] in Hr. destruct e; try discriminate Hr.
    injection Hr as <-. reflexivity.
Qed.

(** X18: the agent a setup sets for its entry has no history, also when the
    entry had an agent with histories before; so every turn on it that
    returns, whatever the session id of its input, returns the id minted
    for it, and the store it leaves holds at most that one session. *)
Theorem setup_gives_fresh_agent (DOMAIN : string)
    (Engine_list : json -> Z -> engine_listing) (entry_id : string)
    (entry : ConfigEntry) (hass : hass_state) :
  Engine_list (entry_api_key entry) 10%Z = Listed ->
  exists agent,
    hass_agents (snd (async_setup_entry DOMAIN Engine_list entry_id entry hass))
      !! entry_id = Some agent
    /\ agent_entry agent = entry
    /\ agent_history agent = ∅
    /\ forall K W user_input,
         (forall r, fst (agent_process K W agent user_input) = Return r ->
                    conversation_id r = ulid W)
         /\ forall other, other <> ulid W ->
              history (snd (agent_process K W agent user_input)) !! other = None.
Proof.
  intros Hlisted. rewrite (async_setup_entry_listed _ _ _ _ _ Hlisted).
  exists (new_agent entry). cbn [snd hass_agents].
  split; [apply lookup_insert_eq|]. split; [reflexivity|]. split; [reflexivity|].
  intros K W user_input. unfold agent_process. cbn [new_agent agent_entry agent_history].
  assert (Hunk : unknown_session user_input ∅)
    by (intros id _; apply lookup_empty).
  split.
  - intros r Hr. apply (unknown_session_result_id K entry W user_input ∅ r Hunk Hr).
  - intros other Hother.
    destruct (async_process_history K entry W user_input ∅)
      as [-> | (id & msgs & raw & Hbuilt & ->)]; [apply lookup_empty|].
    destruct Hbuilt as [id old _ Hold | prompt _ _].
    + rewrite lookup_empty in Hold. discriminate Hold.
    + rewrite lookup_insert_ne by congruence. apply lookup_empty.
Qed.

Lemma setup_gives_fresh_agent_witness :
  exists agent,
    hass_agents (snd (async_setup_entry "openai_conversation" (fun _ _ => Listed)
                        "entry-a" sample_entry sample_hass))
      !! "entry-a" = Some agent
    /\ agent_entry agent = sample_entry
    /\ agent_history agent = ∅
    /\ forall K W user_input,
         (forall r, fst (agent_process K W agent user_input) = Return r ->
                    conversation_id r = ulid W)
         /\ forall other, other <> ulid W ->
              history (snd (agent_process K W agent user_input)) !! other = None.
Proof.
  apply (setup_gives_fresh_agent "openai_conversation" (fun _ _ => Listed) "entry-a"
           sample_entry sample_hass).
  reflexivity.
Defined.

(** X19: after the setup of an entry, the image service called for that
    entry asks the provider for one image, with the key of the entry, the
    prompt of the call and its size written twice around an x; it returns
    the first item of the data, raises [IndexError] when there is none,
    turns an [OpenAIError] into a [HomeAssistantError] that quotes it, and
    lets any other exception through. *)
Theorem render_image_after_setup (DOMAIN : string)
    (Engine_list : json -> Z -> engine_listing)
    (Image_acreate : image_request -> outcome (list json))
    (entry_id : string) (entry : ConfigEntry) (hass : hass_state) (call : image_call) :
  Engine_list (entry_api_key entry) 10%Z = Listed ->
  call_config_entry call = entry_id ->
  render_image DOMAIN Image_acreate
    (snd (async_setup_entry DOMAIN Engine_list entry_id entry hass)) call
  = match Image_acreate
            {| image_api_key := entry_api_key entry;
               image_prompt := call_prompt call;
               image_n := 1%Z;
               image_size := call_size call +:+ "x" +:+ call_size call |} with
    | Return (first :: _) => Return first
    | Return [] => Raise (IndexError "list index out of range")
    | Raise (OpenAIError msg) =>
        Raise (HomeAssistantError ("Error generating image: " +:+ msg))
    | Raise err => Raise err
    end.
Proof.
  intros Hlisted Hcall. rewrite (async_setup_entry_listed _ _ _ _ _ Hlisted).
  unfold render_image. cbn [snd hass_data].
  rewrite lookup_insert_eq, Hcall, lookup_insert_eq.
  destruct (Image_acreate _) as [[|first rest]|[]]; reflexivity.
Qed.

Lemma render_image_after_setup_witness :
  render_image "openai_conversation"
    (fun req => if String.eqb (image_size req) "512x512"
                then Return [JObject [("url", JString "https://images.example/1.png")]]
                else Raise (OpenAIError "Invalid size"))
    (snd (async_setup_entry "openai_conversation" (fun _ _ => Listed) "entry-b"
            sample_entry sample_hass)) sample_image_call
  = match (fun req => if String.eqb (image_size req) "512x512"
                      then Return [JObject [("url", JString "https://images.example/1.png")]]
                      else Raise (OpenAIError "Invalid size"))
            {| image_api_key := entry_api_key sample_entry;
               image_prompt := call_prompt sample_image_call;
               image_n := 1%Z;
               image_size := call_size sample_image_call +:+ "x"
                               +:+ call_size sample_image_call |} with
    | Return (first :: _) => Return first
    | Return [] => Raise (IndexError "list index out of range")
    | Raise (OpenAIError msg) =>
        Raise (HomeAssistantError ("Error generating image: " +:+ msg))
    | Raise err => Raise err
    end.
Proof.
  apply (render_image_after_setup "openai_conversation" (fun _ _ => Listed)
           (fun req => if String.eqb (image_size req) "512x512"
                       then Return [JObject [("url", JString "https://images.example/1.png")]]
                       else Raise (OpenAIError "Invalid size"))
           "entry-b" sample_entry sample_hass sample_image_call).
  - reflexivity.
  - reflexivity.
Defined.

(** X20: once an entry is unloaded, the image service called for it raises
    the [KeyError] of the entry id, and asks the provider for nothing:
    the result is the same whatever the provider would answer. *)
Theorem render_image_after_unload (DOMAIN : string)
    (Engine_list : json -> Z -> engine_listing)
    (Image_acreate : image_request -> outcome (list json))
    (entry_id : string) (entry : ConfigEntry) (hass : hass_state) (call : image_call) :
  Engine_list (entry_api_key entry) 10%Z = Listed ->
  call_config_entry call = entry_id ->
  render_image DOMAIN Image_acreate
    (snd (async_unload_entry DOMAIN entry_id
            (snd (async_setup_entry DOMAIN Engine_list entry_id entry hass)))) call
  = Raise (KeyError entry_id).
Proof.
  intros Hlisted Hcall. rewrite (unload_after_setup _ _ _ _ _ Hlisted).
  unfold render_image. cbn [snd hass_data].
  rewrite lookup_insert_eq, Hcall, lookup_delete_eq. reflexivity.
Qed.

Lemma render_image_after_unload_witness :
  render_image "openai_conversation" (fun _ => Return [JString "image"])
    (snd (async_unload_entry "openai_conversation" "entry-b"
            (snd (async_setup_entry "openai_conversation" (fun _ _ => Listed)
                    "entry-b" sample_entry sample_hass)))) sample_image_call
  = Raise (KeyError "entry-b").
Proof.
  apply (render_image_after_unload "openai_conversation" (fun _ _ => Listed)
           (fun _ => Return [JString "image"]) "entry-b" sample_entry sample_hass
           sample_image_call).
  - reflexivity.
  - reflexivity.
Defined.

(** ** Assembling the assistant *)

Lemma append_empty_r (s : string) : s +:+ EmptyString = s.
Proof.
  induction s as [|c s IH]; [reflexivity|].
  rewrite append_String, IH. reflexivity.
Qed.

Lemma register_abilities_all {ChatMessage AIFunction : Type}
    (abilities : list (ability ChatMessage AIFunction)) (p : string)
    (h : list ChatMessage) (f : list AIFunction) :
  Forall (fun a => ability_failure a = None) abilities ->
  register_abilities abilities p h f
  = Return (p +:+ join (map ability_prompt abilities),
            h ++ concat (map ability_history abilities),
            f ++ concat (map ability_functions abilities)).
Proof.
  intros Hall. revert p h f.
  induction Hall as [|a rest Ha _ IH]; intros p h f.
  - cbn [register_abilities map join concat]. rewrite append_empty_r, !app_nil_r.
    reflexivity.
  - cbn [register_abilities map join concat].
    unfold ability_failure in Ha. unfold ability_prompt, ability_history,
      ability_functions.
    destruct (sys_prompt a) as [prompt|]; [|discriminate Ha].
    destruct (chat_history a) as [hist|]; [|discriminate Ha].
    destruct (registered_functions a) as [functions|]; [|discriminate Ha].
    rewrite IH, append_assoc, <- !app_assoc. reflexivity.
Qed.

(** X21: when no call of any ability raises, [get_ai] returns an assistant
    on an engine with a context of 4096 tokens whose system prompt is the
    prompts of the abilities one after the other, whose chat history is
    their histories one after the other, and whose functions are their
    functions one after the other, all in the order of the abilities. *)
Theorem get_ai_concatenates {ChatMessage AIFunction : Type}
    (openai_key api_base model : string)
    (abilities : list (ability ChatMessage AIFunction)) :
  Forall (fun a => ability_failure a = None) abilities ->
  get_ai openai_key api_base model abilities
  = Return
      {| kani_engine :=
           {| engine_api_key := openai_key; engine_model := model;
              max_context_size := 4096%Z; engine_api_base := api_base |};
         kani_system_prompt := join (map ability_prompt abilities);
         kani_chat_history := concat (map ability_history abilities);
         kani_functions := concat (map ability_functions abilities) |}.
Proof.
  intros Hall. unfold get_ai. rewrite (register_abilities_all _ _ _ _ Hall).
  rewrite append_empty. reflexivity.
Qed.

Lemma get_ai_concatenates_witness :
  get_ai "sk-sample" "https://api.openai.com/v1" "gpt-3.5-turbo"
    [home_ability; search_ability]
  = Return
      {| kani_engine :=
           {| engine_api_key := "sk-sample"; engine_model := "gpt-3.5-turbo";
              max_context_size := 4096%Z;
              engine_api_base := "https://api.openai.com/v1" |};
         kani_system_prompt := join (map ability_prompt [home_ability; search_ability]);
         kani_chat_history := concat (map ability_history [home_ability; search_ability]);
         kani_functions := concat (map ability_functions [home_ability; search_ability]) |}.
Proof.
  apply (get_ai_concatenates "sk-sample" "https://api.openai.com/v1" "gpt-3.5-turbo"
           [home_ability; search_ability]).
  repeat constructor.
Defined.

(** X22: when a call of an ability raises and no call of the abilities
    before it does, [get_ai] raises that exception, the first one of that
    ability in the order prompt, history, functions, and builds no
    assistant, whatever the abilities after it are. *)
Theorem get_ai_first_failure {ChatMessage AIFunction : Type}
    (openai_key api_base model : string)
    (before after : list (ability ChatMessage AIFunction))
    (failing : ability ChatMessage AIFunction) (e : exn) :
  Forall (fun a => ability_failure a = None) before ->
  ability_failure failing = Some e ->
  get_ai openai_key api_base model (before ++ failing :: after) = Raise e.
Proof.
  intros Hbefore Hfailing. unfold get_ai.
  assert (H : forall p h f,
             register_abilities (before ++ failing :: after) p h f = Raise e).
  { induction Hbefore as [|a rest Ha _ IH]; intros p h f.
    - cbn [app register_abilities]. unfold ability_failure in Hfailing.
      destruct (sys_prompt failing); [|congruence].
      destruct (chat_history failing); [|congruence].
      destruct (registered_functions failing); [discriminate Hfailing|congruence].
    - cbn [app register_abilities]. unfold ability_failure in Ha.
      destruct (sys_prompt a); [|discriminate Ha].
      destruct (chat_history a); [|discriminate Ha].
      destruct (registered_functions a); [|discriminate Ha].
      apply IH. }
  rewrite H. reflexivity.
Qed.

Lemma get_ai_first_failure_witness :
  get_ai "sk-sample" "https://api.openai.com/v1" "gpt-3.5-turbo"
    ([home_ability] ++ broken_ability :: [search_ability])
  = Raise (OtherError "ConnectionError" "calendar unreachable").
Proof.
  apply (get_ai_first_failure "sk-sample" "https://api.openai.com/v1" "gpt-3.5-turbo"
           [home_ability] [search_ability] broken_ability
           (OtherError "ConnectionError" "calendar unreachable")).
  - repeat constructor.
  - reflexivity.
Defined.

(** ** Signing in with Google *)

(** X23: a token file whose credentials are valid is all the function
    uses: it returns those credentials, writes no file, refreshes nothing
    and opens no sign-in page. *)
Theorem valid_token_is_reused {Credentials InstalledAppFlow : Type}
    (G : google_auth Credentials InstalledAppFlow) (files : gmap string string)
    (content : string) (creds : Credentials) :
  files !! "token.json" = Some content ->
  from_authorized_user_file G content = Return creds ->
  valid G creds = true ->
  authenticate_with_google G files = (Some creds, files, []).
Proof.
  intros Hfile Hload Hvalid. unfold authenticate_with_google, authenticate_body.
  rewrite Hfile, Hload, Hvalid. reflexivity.
Qed.

Lemma valid_token_is_reused_witness :
  authenticate_with_google sample_google (<["token.json" := "*stored"]> sample_files)
  = (Some ("stored", true), <["token.json" := "*stored"]> sample_files, []).
Proof.
  apply (valid_token_is_reused sample_google (<["token.json" := "*stored"]> sample_files)
           "*stored" ("stored", true)).
  - vm_compute. reflexivity.
  - reflexivity.
  - reflexivity.
Defined.


(** X25: stored credentials that are not valid but expired with a refresh
    token are refreshed, never replaced by a sign-in: the refreshed
    credentials are saved and returned, and when the refresh raises, the
    function returns nothing, leaves the files alone and opens no sign-in
    page. *)
Theorem expired_token_is_refreshed {Credentials InstalledAppFlow : Type}
    (G : google_auth Credentials InstalledAppFlow) (files : gmap string string)
    (content : string) (creds : Credentials) :
  files !! "token.json" = Some content ->
  from_authorized_user_file G content = Return creds ->
  valid G creds = false ->
  expired G creds = true ->
  has_refresh_token G creds = true ->
  snd (authenticate_with_google G files) = [Refreshed]
  /\ (forall e, refresh G creds = Raise e ->
        authenticate_with_google G files = (None, files, [Refreshed]))
  /\ (forall renewed, refresh G creds = Return renewed ->
        open_for_writing G "token.json" = Return tt ->
        authenticate_with_google G files
        = (Some renewed, <["token.json" := to_json G renewed]> files, [Refreshed])).
Proof.
  intros Hfile Hload Hvalid Hexpired Htoken.
  unfold authenticate_with_google, authenticate_body.
  rewrite Hfile, Hload, Hvalid, Hexpired, Htoken. cbn [andb].
  split; [|split].
  - destruct (refresh G creds); [|reflexivity].
    destruct (open_for_writing G "token.json") as [[]|]; reflexivity.
  - intros e ->. reflexivity.
  - intros renewed -> ->. reflexivity.
Qed.

Lemma expired_token_is_refreshed_witness :
  snd (authenticate_with_google sample_google (<["token.json" := "old"]> sample_files))
  = [Refreshed]
  /\ (forall e, refresh sample_google ("old", false) = Raise e ->
        authenticate_with_google sample_google (<["token.json" := "old"]> sample_files)
        = (None, <["token.json" := "old"]> sample_files, [Refreshed]))
  /\ (forall renewed, refresh sample_google ("old", false) = Return renewed ->
        open_for_writing sample_google "token.json" = Return tt ->
        authenticate_with_google sample_google (<["token.json" := "old"]> sample_files)
        = (Some renewed,
           <["token.json" := to_json sample_google renewed]>
             (<["token.json" := "old"]> sample_files),
           [Refreshed])).
Proof.
  apply (expired_token_is_refreshed sample_google
           (<["token.json" := "old"]> sample_files) "old" ("old", false)).
  - vm_compute. reflexivity.
  - reflexivity.
  - reflexivity.
  - reflexivity.
  - reflexivity.
Defined.

(** X26: without a token file the function signs in on port 8035 with the
    two scopes, saves the credentials it gets and returns them; and when
    the saved token reads back as those credentials and they are valid, the
    next call returns them from the file, with no sign-in and no write. *)
Theorem sign_in_then_reuse {Credentials InstalledAppFlow : Type}
    (G : google_auth Credentials InstalledAppFlow) (files : gmap string string)
    (flow : InstalledAppFlow) (creds : Credentials) :
  files !! "token.json" = None ->
  from_client_secrets_file G (files !! "client_secret.json")
    ["https://www.googleapis.com/auth/calendar.events";
     "https://www.googleapis.com/auth/tasks"] = Return flow ->
  run_local_server G flow 8035%Z = Return creds ->
  open_for_writing G "token.json" = Return tt ->
  from_authorized_user_file G (to_json G creds) = Return creds ->
  valid G creds = true ->
  authenticate_with_google G files
  = (Some creds, <["token.json" := to_json G creds]> files, [RanLocalServer 8035%Z])
  /\ authenticate_with_google G (<["token.json" := to_json G creds]> files)
     = (Some creds, <["token.json" := to_json G creds]> files, []).
Proof.
  intros Hfile Hflow Hlogin Hopen Hload Hvalid. split.
  - unfold authenticate_with_google, authenticate_body.
    rewrite Hfile. unfold GOOGLE_SCOPES. rewrite Hflow, Hlogin, Hopen. reflexivity.
  - unfold authenticate_with_google, authenticate_body.
    rewrite lookup_insert_eq, Hload, Hvalid. reflexivity.
Qed.

Lemma sign_in_then_reuse_witness :
  authenticate_with_google sample_google sample_files
  = (Some ("fresh", true),
     <["token.json" := to_json sample_google ("fresh", true)]> sample_files,
     [RanLocalServer 8035%Z])
  /\ authenticate_with_google sample_google
       (<["token.json" := to_json sample_google ("fresh", true)]> sample_files)
     = (Some ("fresh", true),
        <["token.json" := to_json sample_google ("fresh", true)]> sample_files, []).
Proof.
  apply (sign_in_then_reuse sample_google sample_files tt ("fresh", true)).
  - vm_compute. reflexivity.
  - vm_compute. reflexivity.
  - reflexivity.
  - reflexivity.
  - reflexivity.
  - reflexivity.
Defined.
